(** * ALTMAN Tracker 8.8: the main window ([ui/main_window.py])

    A shallow embedding of the [MainWindow] class: the rating form with its
    five sliders and the summary field, the page stack, the window frame,
    the settings store and the signal/slot wiring.  Methods of the class
    are computations in a state-and-exception monad over the window; every
    call made on a collaborator (a Qt widget, the settings store, the
    database helpers) is appended to a history when it is attempted and
    may raise, as decided by the environment. *)

From Stdlib Require Import ZArith List String Bool Lia.
From stdpp Require Import base strings gmap.
Import ListNotations.
Open Scope Z_scope.

(** ** Values *)

Definition bytes := list Byte.byte.

(** An instance of Python's [Exception], by its message. *)
Definition exn := string.

(** What a [QSettings] key holds. *)
Inductive QVariant :=
| VInt (n : Z)
| VBytes (b : bytes).

Record QDate := { year : Z; month : Z; day : Z }.
Record QTime := { hour : Z; minute : Z; second : Z }.

(** *** Reading a stored value as an [int]

    [QSettings.value(key, dflt, type=int)] converts what it finds to a C
    [int]: an integer is cut to 32 bits, a byte string is read as a
    decimal number (white space around it and a sign are allowed) and cut
    likewise, and a byte string that is no number cannot be converted. *)

(** A signed 32-bit value. *)
Definition c_int (n : Z) : Z := (n + 2 ^ 31) mod 2 ^ 32 - 2 ^ 31.

Definition code_of (b : Byte.byte) : Z := Z.of_N (Byte.to_N b).

Definition is_space (b : Byte.byte) : bool :=
  let c := code_of b in ((9 <=? c) && (c <=? 13)) || (c =? 32).

Definition digit_of (b : Byte.byte) : option Z :=
  let c := code_of b in
  if (48 <=? c) && (c <=? 57) then Some (c - 48) else None.

Fixpoint skip_spaces (l : bytes) : bytes :=
  match l with
  | [] => []
  | b :: rest => if is_space b then skip_spaces rest else l
  end.

Definition trim (l : bytes) : bytes :=
  rev (skip_spaces (rev (skip_spaces l))).

(** The digits of [l], after the digits that gave [acc]. *)
Fixpoint digits (l : bytes) (acc : Z) : option Z :=
  match l with
  | [] => Some acc
  | b :: rest =>
      match digit_of b with
      | Some d => digits rest (10 * acc + d)
      | None => None
      end
  end.

Definition unsigned (l : bytes) : option Z :=
  match l with
  | [] => None
  | _ :: _ => digits l 0
  end.

(** The decimal number a byte string spells, when it spells one that a
    [long long] holds. *)
Definition parse_decimal (l : bytes) : option Z :=
  let number :=
    match trim l with
    | [] => None
    | sign :: rest =>
        if code_of sign =? 45 then Z.opp <$> unsigned rest
        else if code_of sign =? 43 then unsigned rest
        else unsigned (sign :: rest)
    end in
  match number with
  | Some n => if (- 2 ^ 63 <=? n) && (n <? 2 ^ 63) then Some n else None
  | None => None
  end.

Definition as_c_int (v : QVariant) : option Z :=
  match v with
  | VInt n => Some (c_int n)
  | VBytes b => c_int <$> parse_decimal b
  end.

(** A widget holding a bounded integer ([QAbstractSlider], [QSpinBox]). *)
Record Ranged := { minimum : Z; maximum : Z; value : Z }.

(** Qt's [qBound lo v hi]. *)
Definition qBound (lo v hi : Z) : Z := Z.max lo (Z.min hi v).

Definition Ranged_setValue (v : Z) (r : Ranged) : Ranged :=
  {| minimum := minimum r; maximum := maximum r;
     value := qBound (minimum r) v (maximum r) |}.

(** [setRange lo hi] keeps [lo], raises the upper end to [lo] when it is
    below, and bounds the current value again. *)
Definition Ranged_setRange (lo hi : Z) (r : Ranged) : Ranged :=
  {| minimum := lo; maximum := Z.max lo hi;
     value := qBound lo (value r) (Z.max lo hi) |}.

Inductive SliderId := Sleep | Speech | Activity | Cheer | Confidence.

Inductive Page := onepage | twopage.

Inductive Action :=
| actionShowAltmanExam
| actionShowAltmanTable
| actionCommit
| actionDelete.

Inductive Signal :=
| sig_currentChanged
| sig_triggered (a : Action)
| sig_valueChanged (s : SliderId).

(** ** The form, as generated from the designer file *)

Record Form := {
  altmans_sleep : Ranged;
  altmans_speech : Ranged;
  altmans_activity : Ranged;
  altmans_cheer : Ranged;
  altmans_confidence : Ranged;
  altmans_summary : Ranged;
  altmans_summary_enabled : bool;
  altman_date : QDate;
  altman_time : QTime
}.

Definition slider (s : SliderId) (f : Form) : Ranged :=
  match s with
  | Sleep => altmans_sleep f
  | Speech => altmans_speech f
  | Activity => altmans_activity f
  | Cheer => altmans_cheer f
  | Confidence => altmans_confidence f
  end.

Definition set_slider (s : SliderId) (r : Ranged) (f : Form) : Form :=
  {| altmans_sleep := match s with Sleep => r | _ => altmans_sleep f end;
     altmans_speech := match s with Speech => r | _ => altmans_speech f end;
     altmans_activity := match s with Activity => r | _ => altmans_activity f end;
     altmans_cheer := match s with Cheer => r | _ => altmans_cheer f end;
     altmans_confidence := match s with Confidence => r | _ => altmans_confidence f end;
     altmans_summary := altmans_summary f;
     altmans_summary_enabled := altmans_summary_enabled f;
     altman_date := altman_date f;
     altman_time := altman_time f |}.

Definition set_summary (r : Ranged) (f : Form) : Form :=
  {| altmans_sleep := altmans_sleep f;
     altmans_speech := altmans_speech f;
     altmans_activity := altmans_activity f;
     altmans_cheer := altmans_cheer f;
     altmans_confidence := altmans_confidence f;
     altmans_summary := r;
     altmans_summary_enabled := altmans_summary_enabled f;
     altman_date := altman_date f;
     altman_time := altman_time f |}.

Definition set_summary_enabled (b : bool) (f : Form) : Form :=
  {| altmans_sleep := altmans_sleep f;
     altmans_speech := altmans_speech f;
     altmans_activity := altmans_activity f;
     altmans_cheer := altmans_cheer f;
     altmans_confidence := altmans_confidence f;
     altmans_summary := altmans_summary f;
     altmans_summary_enabled := b;
     altman_date := altman_date f;
     altman_time := altman_time f |}.

Definition set_date (d : QDate) (f : Form) : Form :=
  {| altmans_sleep := altmans_sleep f;
     altmans_speech := altmans_speech f;
     altmans_activity := altmans_activity f;
     altmans_cheer := altmans_cheer f;
     altmans_confidence := altmans_confidence f;
     altmans_summary := altmans_summary f;
     altmans_summary_enabled := altmans_summary_enabled f;
     altman_date := d;
     altman_time := altman_time f |}.

Definition set_time (t : QTime) (f : Form) : Form :=
  {| altmans_sleep := altmans_sleep f;
     altmans_speech := altmans_speech f;
     altmans_activity := altmans_activity f;
     altmans_cheer := altmans_cheer f;
     altmans_confidence := altmans_confidence f;
     altmans_summary := altmans_summary f;
     altmans_summary_enabled := altmans_summary_enabled f;
     altman_date := altman_date f;
     altman_time := t |}.

(** ** Calls on collaborators *)

(** The function handed to [add_altmans_data]. *)
Inductive DbMethod := insert_into_altman_table.

(** The flag handed to [setWindowFlags]. *)
Inductive WindowFlag := FramelessWindowHint.

(** One constructor per call the class makes on an object it does not
    define, with the arguments of the call.  The window handed over as
    [self] is represented by the form as it stands when the call is made. *)
Inductive Op :=
| SuperInit
| NewUiMainWindow
| SetupUi
| NewDataManager
| NewQSettings
| NewWindowController
| SetWindowFlags (flag : WindowFlag)
| Connect (sig : Signal)
| SettingsValue (key : string)
| SettingsSetValue (key : string) (v : QVariant)
| SetCurrentIndex (i : Z)
| SetCurrentWidget (p : Page)
| CurrentTime
| CurrentDate
| SetTime (t : QTime)
| SetDate (d : QDate)
| SliderValue (s : SliderId)
| SliderSetRange (s : SliderId) (lo hi : Z)
| SummarySetValue (n : Z)
| SummarySetEnabled (b : bool)
| SaveGeometry
| SaveState
| RestoreGeometry (v : QVariant)
| RestoreState (v : QVariant)
| Resize (w h : Z)
| SetFixedSize (w h : Z)
| CreateAndSetModel (table view : string)
| AddAltmansData (self : Form) (widget_names : list (string * string))
                 (insert : DbMethod)
| DeleteSelectedRows (table model : string)
| ChangeStackPage (p : Z)
| LoggerError (msg : string).

(** ** The window *)

Record Frame := { frame_x : Z; frame_y : Z; frame_w : Z; frame_h : Z }.

Record Chrome := {
  stackedWidget : Z;            (* index of the current page *)
  geometry : Frame;
  fixedSize : option (Z * Z);
  windowState : bytes           (* tool bar and dock layout *)
}.

Definition set_stackedWidget (i : Z) (c : Chrome) : Chrome :=
  {| stackedWidget := i; geometry := geometry c;
     fixedSize := fixedSize c; windowState := windowState c |}.

Definition set_geometry (g : Frame) (c : Chrome) : Chrome :=
  {| stackedWidget := stackedWidget c; geometry := g;
     fixedSize := fixedSize c; windowState := windowState c |}.

Definition set_fixedSize (s : option (Z * Z)) (c : Chrome) : Chrome :=
  {| stackedWidget := stackedWidget c; geometry := geometry c;
     fixedSize := s; windowState := windowState c |}.

Definition set_windowState (b : bytes) (c : Chrome) : Chrome :=
  {| stackedWidget := stackedWidget c; geometry := geometry c;
     fixedSize := fixedSize c; windowState := b |}.

(** The callables the class connects to signals. *)
Inductive PageSlot := bound_on_page_changed.
Inductive ActionSlot :=
| bound_switchone
| bound_switchtwo
| lambda_change_stack_page (p : Z)
| lambda_add_altmans_data
| lambda_delete_selected_rows.
Inductive ValueSlot := bound_update_altmans_summary.

(** Connections, per signal, in the order they were made. *)
Record Wiring := {
  currentChanged : list PageSlot;
  triggered : list (Action * ActionSlot);
  valueChanged : list (SliderId * ValueSlot)
}.

#[global] Instance SliderId_eq_dec : EqDecision SliderId.
Proof. solve_decision. Defined.

#[global] Instance Action_eq_dec : EqDecision Action.
Proof. solve_decision. Defined.

Record Window := {
  form : Form;
  chrome : Chrome;
  wiring : Wiring;
  settings : gmap string QVariant;
  altmans_model : option string;
  history : list Op
}.

Definition with_form (f : Form) (w : Window) : Window :=
  {| form := f; chrome := chrome w; wiring := wiring w;
     settings := settings w; altmans_model := altmans_model w;
     history := history w |}.

Definition with_chrome (c : Chrome) (w : Window) : Window :=
  {| form := form w; chrome := c; wiring := wiring w;
     settings := settings w; altmans_model := altmans_model w;
     history := history w |}.

Definition with_wiring (g : Wiring) (w : Window) : Window :=
  {| form := form w; chrome := chrome w; wiring := g;
     settings := settings w; altmans_model := altmans_model w;
     history := history w |}.

Definition with_settings (s : gmap string QVariant) (w : Window) : Window :=
  {| form := form w; chrome := chrome w; wiring := wiring w;
     settings := s; altmans_model := altmans_model w;
     history := history w |}.

Definition with_model (m : option string) (w : Window) : Window :=
  {| form := form w; chrome := chrome w; wiring := wiring w;
     settings := settings w; altmans_model := m;
     history := history w |}.

Definition with_history (h : list Op) (w : Window) : Window :=
  {| form := form w; chrome := chrome w; wiring := wiring w;
     settings := settings w; altmans_model := altmans_model w;
     history := h |}.

(** ** The environment: what the collaborators do *)

Record Env := {
  faults : Op -> option exn;          (* the calls that raise, and what *)
  clock_time : QTime;                 (* QTime.currentTime() *)
  clock_date : QDate;                 (* QDate.currentDate() *)
  encode_geometry : Frame -> bytes;   (* the blob of saveGeometry() *)
  decode_geometry : bytes -> option Frame;
  accepts_state : bytes -> bool       (* blobs restoreState() takes *)
}.

(** ** State and exceptions *)

Inductive Outcome (A : Type) :=
| Returned (a : A)
| Raised (e : exn).
Arguments Returned {A} a.
Arguments Raised {A} e.

Definition M (A : Type) : Type := Window -> Outcome A * Window.

Definition ret {A} (a : A) : M A := fun w => (Returned a, w).

Definition raise {A} (e : exn) : M A := fun w => (Raised e, w).

Definition bind {A B} (m : M A) (k : A -> M B) : M B :=
  fun w =>
    match m w with
    | (Returned a, w') => k a w'
    | (Raised e, w') => (Raised e, w')
    end.

(** [try: body except Exception as e: handler e]. *)
Definition try_except {A} (body : M A) (handler : exn -> M A) : M A :=
  fun w =>
    match body w with
    | (Returned a, w') => (Returned a, w')
    | (Raised e, w') => handler e w'
    end.

Definition get : M Window := fun w => (Returned w, w).

Definition modify (f : Window -> Window) : M unit :=
  fun w => (Returned tt, f w).

Declare Scope py_scope.
Delimit Scope py_scope with py.
Bind Scope py_scope with M.
Notation "x <- m ;; k" := (bind m (fun x => k))
  (at level 100, m at next level, right associativity) : py_scope.
Notation "m ;; k" := (bind m (fun _ => k))
  (at level 100, right associativity) : py_scope.
Open Scope py_scope.

(** [for x in l: body x]. *)
Fixpoint for_each {A} (l : list A) (body : A -> M unit) : M unit :=
  match l with
  | [] => ret tt
  | x :: rest => body x ;; for_each rest body
  end.

Definition outcome {A} (r : Outcome A * Window) : Outcome A := fst r.
Definition after {A} (r : Outcome A * Window) : Window := snd r.

(** ** The class *)

Module MainWindow.
Section Methods.

Variable env : Env.

(** *** Calls on collaborators *)

Definition record (o : Op) (w : Window) : Window :=
  with_history (history w ++ [o]) w.

(** A call is recorded when it is attempted, and raises when the
    environment says so. *)
Definition call (o : Op) : M unit :=
  fun w =>
    match faults env o with
    | Some e => (Raised e, record o w)
    | None => (Returned tt, record o w)
    end.

(** [logger.error(msg, ...)]; logging itself does not raise. *)
Definition logger_error (msg : string) : M unit :=
  modify (record (LoggerError msg)).

(** [signal.connect(slot)] *)
Definition connect_currentChanged (slot : PageSlot) : M unit :=
  call (Connect sig_currentChanged) ;;
  modify (fun w =>
    let g := wiring w in
    with_wiring {| currentChanged := currentChanged g ++ [slot];
                   triggered := triggered g;
                   valueChanged := valueChanged g |} w).

Definition connect_triggered (a : Action) (slot : ActionSlot) : M unit :=
  call (Connect (sig_triggered a)) ;;
  modify (fun w =>
    let g := wiring w in
    with_wiring {| currentChanged := currentChanged g;
                   triggered := triggered g ++ [(a, slot)];
                   valueChanged := valueChanged g |} w).

Definition connect_valueChanged (s : SliderId) (slot : ValueSlot) : M unit :=
  call (Connect (sig_valueChanged s)) ;;
  modify (fun w =>
    let g := wiring w in
    with_wiring {| currentChanged := currentChanged g;
                   triggered := triggered g;
                   valueChanged := valueChanged g ++ [(s, slot)] |} w).

(** [self.settings.value(key, dflt)]: the stored value, or [dflt]. *)
Definition settings_value (key : string) (dflt : QVariant) : M QVariant :=
  call (SettingsValue key) ;;
  w <- get ;;
  ret (default dflt (settings w !! key)).

(** [self.settings.value(key, dflt, type=int)]: the value found, as a C
    [int]; one that cannot be converted is a [TypeError]. *)
Definition settings_value_int (key : string) (dflt : Z) : M Z :=
  v <- settings_value key (VInt dflt) ;;
  match as_c_int v with
  | Some n => ret n
  | None => raise "TypeError"%string
  end.

Definition settings_setValue (key : string) (v : QVariant) : M unit :=
  call (SettingsSetValue key v) ;;
  modify (fun w => with_settings (<[key := v]> (settings w)) w).

Definition QTime_currentTime : M QTime :=
  call CurrentTime ;; ret (clock_time env).

Definition QDate_currentDate : M QDate :=
  call CurrentDate ;; ret (clock_date env).

Definition altman_time_setTime (t : QTime) : M unit :=
  call (SetTime t) ;; modify (fun w => with_form (set_time t (form w)) w).

Definition altman_date_setDate (d : QDate) : M unit :=
  call (SetDate d) ;; modify (fun w => with_form (set_date d (form w)) w).

Definition slider_value (s : SliderId) : M Z :=
  call (SliderValue s) ;;
  w <- get ;;
  ret (value (slider s (form w))).

Definition altmans_summary_setValue (n : Z) : M unit :=
  call (SummarySetValue n) ;;
  modify (fun w =>
    with_form (set_summary (Ranged_setValue n (altmans_summary (form w)))
                           (form w)) w).

Definition altmans_summary_setEnabled (b : bool) : M unit :=
  call (SummarySetEnabled b) ;;
  modify (fun w => with_form (set_summary_enabled b (form w)) w).

Definition saveGeometry : M bytes :=
  call SaveGeometry ;;
  w <- get ;;
  ret (encode_geometry env (geometry (chrome w))).

Definition saveState : M bytes :=
  call SaveState ;;
  w <- get ;;
  ret (windowState (chrome w)).

(** [self.restoreGeometry(v)]: a blob shorter than its header, or one
    that does not decode, restores nothing and gives [False]. *)
Definition restoreGeometry (v : QVariant) : M bool :=
  call (RestoreGeometry v) ;;
  match v with
  | VInt _ => raise "TypeError"%string
  | VBytes b =>
      if (Z.of_nat (length b) <? 4) then ret false
      else match decode_geometry env b with
           | Some g =>
               modify (fun w => with_chrome (set_geometry g (chrome w)) w) ;;
               ret true
           | None => ret false
           end
  end.

(** [self.restoreState(v)]: an empty blob restores nothing. *)
Definition restoreState (v : QVariant) : M bool :=
  call (RestoreState v) ;;
  match v with
  | VInt _ => raise "TypeError"%string
  | VBytes b =>
      match b with
      | [] => ret false
      | _ :: _ =>
          if accepts_state env b then
            modify (fun w => with_chrome (set_windowState b (chrome w)) w) ;;
            ret true
          else ret false
      end
  end.

(** [self.resize(w, h)]: a fixed size wins over the request. *)
Definition resize (width height : Z) : M unit :=
  call (Resize width height) ;;
  modify (fun w =>
    let c := chrome w in
    let size := default (width, height) (fixedSize c) in
    with_chrome
      (set_geometry {| frame_x := frame_x (geometry c);
                       frame_y := frame_y (geometry c);
                       frame_w := fst size; frame_h := snd size |} c) w).

Definition setFixedSize (width height : Z) : M unit :=
  call (SetFixedSize width height) ;;
  modify (fun w =>
    let c := chrome w in
    with_chrome
      (set_fixedSize (Some (width, height))
         (set_geometry {| frame_x := frame_x (geometry c);
                          frame_y := frame_y (geometry c);
                          frame_w := width; frame_h := height |} c)) w).

(** *** Slots that run no other slot *)

(** [on_page_changed(self, index)] *)
Definition on_page_changed (index : Z) : M unit :=
  try_except
    (settings_setValue "lastPageIndex" (VInt index))
    (fun e => logger_error e).

(** The list comprehension of [update_altmans_summary]:
    [[slider.value() for slider in sliders if slider.value() > 0]]. *)
Fixpoint positive_values (sliders : list SliderId) : M (list Z) :=
  match sliders with
  | [] => ret []
  | s :: rest =>
      c <- slider_value s ;;
      if 0 <? c then
        v <- slider_value s ;;
        vs <- positive_values rest ;;
        ret (v :: vs)
      else positive_values rest
  end.

(** Python's [sum]: from 0, left to right. *)
Definition py_sum (values : list Z) : Z := fold_left Z.add values 0.

Definition form_sliders : list SliderId :=
  [Sleep; Speech; Activity; Cheer; Confidence].

(** [update_altmans_summary(self)] *)
Definition update_altmans_summary : M unit :=
  try_except
    (values <- positive_values form_sliders ;;
     let altmans_sum := py_sum values in
     altmans_summary_setValue altmans_sum)
    (fun e => logger_error e).

(** *** Signals *)

Definition emit_currentChanged (index : Z) : M unit :=
  w <- get ;;
  for_each (currentChanged (wiring w))
    (fun slot => match slot with
                 | bound_on_page_changed => on_page_changed index
                 end).

Definition emit_valueChanged (s : SliderId) : M unit :=
  w <- get ;;
  for_each (filter (fun c => bool_decide (fst c = s)) (valueChanged (wiring w)))
    (fun c => match snd c with
              | bound_update_altmans_summary => update_altmans_summary
              end).

(** The pages of the stack: [onepage] is page 0 and [twopage] page 1, as
    [stack_navigation] numbers them. *)
Definition page_index (p : Page) : Z :=
  match p with onepage => 0 | twopage => 1 end.

(** The stack shows page [i]: nothing happens for an index it does not
    have or the page it already shows; otherwise [currentChanged(i)]. *)
Definition show_page (i : Z) : M unit :=
  w <- get ;;
  if (0 <=? i) && (i <? 2) && negb (i =? stackedWidget (chrome w)) then
    modify (fun w => with_chrome (set_stackedWidget i (chrome w)) w) ;;
    emit_currentChanged i
  else ret tt.

Definition stackedWidget_setCurrentIndex (i : Z) : M unit :=
  call (SetCurrentIndex i) ;; show_page i.

Definition stackedWidget_setCurrentWidget (p : Page) : M unit :=
  call (SetCurrentWidget p) ;; show_page (page_index p).

(** [slider.setRange(lo, hi)]: the value is bounded again, and
    [valueChanged] is emitted when that moves it. *)
Definition slider_setRange (s : SliderId) (lo hi : Z) : M unit :=
  call (SliderSetRange s lo hi) ;;
  w <- get ;;
  let r := slider s (form w) in
  let r' := Ranged_setRange lo hi r in
  modify (fun w => with_form (set_slider s r' (form w)) w) ;;
  if value r' =? value r then ret tt else emit_valueChanged s.

(** *** Helpers imported from the rest of the application *)

(** Modelled from the spec: [database.database_utility.model_setup] is
    not part of this module.  The model-binding operation accepts a table
    name and a view widget and returns a bound tabular model; the model
    is identified by its table. *)
Definition create_and_set_model (table view : string) : M string :=
  call (CreateAndSetModel table view) ;; ret table.

(** Modelled from the spec: [database.altman_add_data] is not part of
    this module.  The insert operation accepts the window, a field-name
    mapping and a target insert function; what it stores is the
    collaborator's concern. *)
Definition add_altmans_data (widget_names : list (string * string))
    (insert : DbMethod) : M unit :=
  w <- get ;;
  call (AddAltmansData (form w) widget_names insert).

(** Modelled from the spec: [database.database_utility.delete_records]
    is not part of this module.  The delete operation accepts a table
    identifier and a model identifier and performs the deletion. *)
Definition delete_selected_rows (table model : string) : M unit :=
  call (DeleteSelectedRows table model).

(** Modelled from the spec: [navigation.master_navigation] is not part of
    this module.  Page switching selects the page of the stack. *)
Definition change_stack_page (p : Z) : M unit :=
  call (ChangeStackPage p) ;; show_page p.

(** *** Methods *)

(** [app_operations(self)] *)
Definition app_operations : M unit :=
  try_except
    (connect_currentChanged bound_on_page_changed ;;
     last_index <- settings_value_int "lastPageIndex" 0 ;;
     stackedWidget_setCurrentIndex last_index ;;
     t <- QTime_currentTime ;;
     altman_time_setTime t ;;
     d <- QDate_currentDate ;;
     altman_date_setDate d)
    (fun e =>
       logger_error ("Error occurred while setting up app_operations : " +:+ e)).

(** [switchone(self)] *)
Definition switchone : M unit :=
  stackedWidget_setCurrentWidget onepage ;;
  resize 476 175 ;;
  setFixedSize 476 175.

(** [switchtwo(self)] *)
Definition switchtwo : M unit :=
  stackedWidget_setCurrentWidget twopage ;;
  resize 800 460 ;;
  setFixedSize 800 460.

(** [switch_page_view_setup(self)] *)
Definition switch_page_view_setup : M unit :=
  connect_triggered actionShowAltmanExam bound_switchone ;;
  connect_triggered actionShowAltmanTable bound_switchtwo.

(** [stack_navigation(self)] *)
Definition stack_navigation : M unit :=
  try_except
    (let change_stack_pages :=
       [(actionShowAltmanExam, 0); (actionShowAltmanTable, 1)] in
     for_each change_stack_pages
       (fun item =>
          let '(action, page) := item in
          connect_triggered action (lambda_change_stack_page page)))
    (fun e => logger_error ("An error has occurred: " +:+ e)).

(** The dictionary literal of [altman_table_commit]. *)
Definition widget_names : list (string * string) :=
  [("altman_date", "altman_date");
   ("altman_time", "altman_time");
   ("altmans_sleep", "altmans_sleep");
   ("altmans_speech", "altmans_speech");
   ("altmans_activity", "altmans_activity");
   ("altmans_cheer", "altmans_cheer");
   ("altmans_confidence", "altmans_confidence");
   ("altmans_summary", "altmans_summary");
   ("model", "altmans_model")]%string.

(** [altman_table_commit(self)] *)
Definition altman_table_commit : M unit :=
  try_except
    (connect_triggered actionCommit lambda_add_altmans_data)
    (fun e => logger_error ("An Error has occurred " +:+ e)) ;;
  altmans_summary_setEnabled false ;;
  for_each form_sliders (fun slider => slider_setRange slider 0 4) ;;
  connect_valueChanged Sleep bound_update_altmans_summary ;;
  connect_valueChanged Speech bound_update_altmans_summary ;;
  connect_valueChanged Activity bound_update_altmans_summary ;;
  connect_valueChanged Cheer bound_update_altmans_summary ;;
  connect_valueChanged Confidence bound_update_altmans_summary.

(** [delete_group(self)] *)
Definition delete_group : M unit :=
  connect_triggered actionDelete lambda_delete_selected_rows.

(** [setup_models(self)] *)
Definition setup_models : M unit :=
  m <- create_and_set_model "altman_table" "altmans_manic_rating_table" ;;
  modify (with_model (Some m)).

(** [save_state(self)] *)
Definition save_state : M unit :=
  try_except
    (g <- saveGeometry ;;
     settings_setValue "geometry" (VBytes g))
    (fun e => logger_error ("Error saving the minds_module geo" +:+ e)) ;;
  try_except
    (s <- saveState ;;
     settings_setValue "windowState" (VBytes s))
    (fun e => logger_error ("Error saving the minds_module geo" +:+ e)).

(** [restore_state(self)] *)
Definition restore_state : M unit :=
  try_except
    (v <- settings_value "geometry" (VBytes []) ;;
     restoreGeometry v ;;
     ret tt)
    (fun e =>
       logger_error ("Error restoring the minds module : stress state " +:+ e)) ;;
  try_except
    (v <- settings_value "windowState" (VBytes []) ;;
     restoreState v ;;
     ret tt)
    (fun e => logger_error ("Error restoring WINDOW STATE " +:+ e)).

(** [closeEvent(self, event)] *)
Definition closeEvent : M unit :=
  try_except
    save_state
    (fun e => logger_error ("error saving state during closure: " +:+ e)).

(** [__init__(self)].  The window it starts from has the widgets the
    generated form gives it and the settings store as it was persisted;
    the calls that build the window and its helpers are made, and may
    raise, where the constructor makes them.  The attribute [becks_model]
    is set to [None] and never read.  The names handed to [QSettings] are
    constants of [tracker_config]. *)
Definition __init__ : M unit :=
  call SuperInit ;;
  call NewUiMainWindow ;;
  call SetupUi ;;
  call NewDataManager ;;
  setup_models ;;
  call NewQSettings ;;
  call NewWindowController ;;
  call (SetWindowFlags FramelessWindowHint) ;;
  app_operations ;;
  restore_state ;;
  stack_navigation ;;
  delete_group ;;
  update_altmans_summary ;;
  altman_table_commit ;;
  switch_page_view_setup.

(** *** What the user does to the window *)

(** The lambdas and bound methods behind the menu actions. *)
Definition run_action_slot (slot : ActionSlot) : M unit :=
  match slot with
  | bound_switchone => switchone
  | bound_switchtwo => switchtwo
  | lambda_change_stack_page p => change_stack_page p
  | lambda_add_altmans_data =>
      add_altmans_data widget_names insert_into_altman_table
  | lambda_delete_selected_rows =>
      delete_selected_rows "altmans_manic_rating_table" "altmans_model"
  end.

Definition emit_triggered (a : Action) : M unit :=
  w <- get ;;
  for_each (filter (fun c => bool_decide (fst c = a)) (triggered (wiring w)))
    (fun c => run_action_slot (snd c)).

(** The user drags a slider to [v]: the slider bounds the value, and
    emits [valueChanged] when it differs from the one it held. *)
Definition move_slider (s : SliderId) (v : Z) : M unit :=
  w <- get ;;
  let r := slider s (form w) in
  let r' := Ranged_setValue v r in
  if value r' =? value r then ret tt
  else
    modify (fun w => with_form (set_slider s r' (form w)) w) ;;
    emit_valueChanged s.

Inductive Event :=
| SliderMoved (s : SliderId) (v : Z)
| ActionTriggered (a : Action)
| DateEdited (d : QDate)
| TimeEdited (t : QTime)
| CloseRequested.

Definition handle (ev : Event) : M unit :=
  match ev with
  | SliderMoved s v => move_slider s v
  | ActionTriggered a => emit_triggered a
  | DateEdited d => modify (fun w => with_form (set_date d (form w)) w)
  | TimeEdited t => modify (fun w => with_form (set_time t (form w)) w)
  | CloseRequested => closeEvent
  end.

(** The windows that exist: the one the constructor returns, and the ones
    it becomes as events are handled. *)
Inductive reachable (w0 : Window) : Window -> Prop :=
| reach_init w :
    __init__ w0 = (Returned tt, w) -> reachable w0 w
| reach_event w ev :
    reachable w0 w -> reachable w0 (after (handle ev w)).

End Methods.
End MainWindow.

(** ** Vocabulary of the properties *)

(** [m] maintains [P], however it ends. *)
Definition keeps {A} (P : Window -> Prop) (m : M A) : Prop :=
  forall w, P w -> P (after (m w)).

(** [m], started where [P] holds and returning normally, ends where [Q]
    holds. *)
Definition hoare {A} (P : Window -> Prop) (m : M A) (Q : Window -> Prop) : Prop :=
  forall w a w', P w -> m w = (Returned a, w') -> Q w'.

(** [m], started where [P] holds, returns, with a value and in a window
    that satisfy [Q]. *)
Definition runs {A} (P : Window -> Prop) (m : M A) (Q : A -> Window -> Prop) : Prop :=
  forall w, P w -> exists a w', m w = (Returned a, w') /\ Q a w'.

(** [m] never raises. *)
Definition no_raise (m : M unit) : Prop :=
  forall w, outcome (m w) = Returned tt.

(** No call raises in this environment. *)
Definition calm (env : Env) : Prop := forall o, faults env o = None.

(** The calls made between two windows of one run. *)
Definition calls_since (w w' : Window) : list Op :=
  drop (length (history w)) (history w').

Definition count (p : Op -> bool) (l : list Op) : nat :=
  length (List.filter p l).

Definition is_write (key : string) (o : Op) : bool :=
  match o with
  | SettingsSetValue k _ => bool_decide (k = key)
  | _ => false
  end.

Definition is_saveGeometry (o : Op) : bool :=
  match o with SaveGeometry => true | _ => false end.

Definition is_saveState (o : Op) : bool :=
  match o with SaveState => true | _ => false end.

(** Calls that reach the settings store or the database helpers. *)
Definition is_persistence (o : Op) : bool :=
  match o with
  | SettingsValue _ | SettingsSetValue _ _
  | CreateAndSetModel _ _ | AddAltmansData _ _ _ | DeleteSelectedRows _ _ => true
  | _ => false
  end.

(** The values of the five sliders, in the order of the form. *)
Definition slider_values (f : Form) : list Z :=
  map (fun s => value (slider s f)) MainWindow.form_sliders.

Definition positive (v : Z) : bool := 0 <? v.

(** The sum of the values greater than zero. *)
Definition positive_sum (values : list Z) : Z :=
  MainWindow.py_sum (List.filter positive values).

(** Slider [s] has the range [0,4] and a value inside it. *)
Definition rated (s : SliderId) (w : Window) : Prop :=
  minimum (slider s (form w)) = 0 /\ maximum (slider s (form w)) = 4 /\
  0 <= value (slider s (form w)) <= 4.

(** Every slider is rated: the invariant of the window. *)
Definition all_rated (w : Window) : Prop := forall s, rated s w.

(** [valueChanged] of slider [s] is connected to
    [update_altmans_summary]. *)
Definition wired (s : SliderId) (w : Window) : Prop :=
  In (s, bound_update_altmans_summary) (valueChanged (wiring w)).

(** The summary field shows the sum of the positive slider values. *)
Definition synced (w : Window) : Prop :=
  value (altmans_summary (form w)) = positive_sum (slider_values (form w)).

(** The summary field can show every total of five ratings. *)
Definition summary_fits (w : Window) : Prop :=
  minimum (altmans_summary (form w)) <= 0 /\
  20 <= maximum (altmans_summary (form w)).

Definition shows_sum (w : Window) : Prop :=
  all_rated w /\ summary_fits w /\ synced w.

(** The reads and the write of [update_altmans_summary] do not raise. *)
Definition summary_calls_work (env : Env) : Prop :=
  (forall s, faults env (SliderValue s) = None) /\
  (forall n, faults env (SummarySetValue n) = None).

(** The value the summary field shows once [update_altmans_summary] has
    run. *)
Definition summary_after (env : Env) (w : Window) : Z :=
  value (altmans_summary (form (after (MainWindow.update_altmans_summary env w)))).

(** What a recomputation of the summary leaves alone, [w0] being the
    window it started from: everything but the value of the summary field
    and the record of the calls, none of which goes to persistence. *)
Definition summary_only (w0 w : Window) : Prop :=
  settings w = settings w0 /\
  chrome w = chrome w0 /\
  wiring w = wiring w0 /\
  altmans_model w = altmans_model w0 /\
  (forall s, slider s (form w) = slider s (form w0)) /\
  altman_date (form w) = altman_date (form w0) /\
  altman_time (form w) = altman_time (form w0) /\
  altmans_summary_enabled (form w) = altmans_summary_enabled (form w0) /\
  minimum (altmans_summary (form w)) = minimum (altmans_summary (form w0)) /\
  maximum (altmans_summary (form w)) = maximum (altmans_summary (form w0)) /\
  exists d, history w = history w0 ++ d /\ count is_persistence d = 0%nat.

(** The calls of the first [try] of [save_state], and of the second. *)
Definition geometry_calls (env : Env) (w : Window) : list Op :=
  let write :=
    SettingsSetValue "geometry"
      (VBytes (encode_geometry env (geometry (chrome w)))) in
  let failed := "Error saving the minds_module geo"%string in
  match faults env SaveGeometry with
  | Some e => [SaveGeometry; LoggerError (failed +:+ e)]
  | None =>
      match faults env write with
      | Some e => [SaveGeometry; write; LoggerError (failed +:+ e)]
      | None => [SaveGeometry; write]
      end
  end.

Definition windowState_calls (env : Env) (w : Window) : list Op :=
  let write := SettingsSetValue "windowState" (VBytes (windowState (chrome w))) in
  let failed := "Error saving the minds_module geo"%string in
  match faults env SaveState with
  | Some e => [SaveState; LoggerError (failed +:+ e)]
  | None =>
      match faults env write with
      | Some e => [SaveState; write; LoggerError (failed +:+ e)]
      | None => [SaveState; write]
      end
  end.

(** The claim about closing, as the specification words it: one write of
    the geometry and frame state and one write of the page index. *)
Definition close_persists_geometry_and_page (env : Env) (w : Window) : Prop :=
  let d := calls_since w (after (MainWindow.closeEvent env w)) in
  count (is_write "geometry") d = 1%nat /\
  count (is_write "windowState") d = 1%nat /\
  count (is_write "lastPageIndex") d = 1%nat.

(** Nothing was ever saved under the three keys of the window. *)
Definition nothing_saved (w : Window) : Prop :=
  settings w !! "lastPageIndex" = None /\
  settings w !! "geometry" = None /\
  settings w !! "windowState" = None.

(** The frame of [w] is that of [w0], nothing is stored for it, and the
    calls of [w0] are the first of [w]. *)
Definition as_found (w0 w : Window) : Prop :=
  geometry (chrome w) = geometry (chrome w0) /\
  fixedSize (chrome w) = fixedSize (chrome w0) /\
  windowState (chrome w) = windowState (chrome w0) /\
  settings w !! "geometry" = None /\
  settings w !! "windowState" = None /\
  exists d, history w = history w0 ++ d.

Definition first_page_shown (w0 w : Window) : Prop :=
  as_found w0 w /\ stackedWidget (chrome w) = 0.

(** [app_operations] followed by [restore_state], as in the
    constructor. *)
Definition restore_on_startup (env : Env) : M unit :=
  MainWindow.app_operations env ;; MainWindow.restore_state env.

(** The slots connected to the commit action. *)
Definition commit_slots (w : Window) : list (Action * ActionSlot) :=
  filter (fun c : Action * ActionSlot => bool_decide (fst c = actionCommit))
         (triggered (wiring w)).

Definition commit_wired (l : list (Action * ActionSlot)) (w : Window) : Prop :=
  commit_slots w = l.

(** The claim about the commit, as the specification words it: the insert
    operation is called with the form as it stands and with a mapping of
    every name to the identically named column. *)
Definition commit_maps_names_to_themselves (env : Env) (w : Window) : Prop :=
  exists names insert,
    calls_since w
      (after (MainWindow.handle env (MainWindow.ActionTriggered actionCommit) w))
    = [AddAltmansData (form w) names insert] /\
    List.Forall (fun kv => fst kv = snd kv) names.

Definition is_create_and_set_model (o : Op) : bool :=
  match o with CreateAndSetModel _ _ => true | _ => false end.

Definition is_connect (sig : Signal) (o : Op) : bool :=
  match o, sig with
  | Connect (sig_triggered a), sig_triggered a' => bool_decide (a = a')
  | Connect (sig_valueChanged s), sig_valueChanged s' => bool_decide (s = s')
  | Connect sig_currentChanged, sig_currentChanged => true
  | _, _ => false
  end.

(** *** A concrete window *)

Definition quiet : Env :=
  {| faults := fun _ => None;
     clock_time := {| hour := 9; minute := 30; second := 0 |};
     clock_date := {| year := 2024; month := 5; day := 17 |};
     encode_geometry := fun f =>
       map (fun z => Byte.x01) [frame_x f; frame_y f; frame_w f; frame_h f];
     decode_geometry := fun _ => None;
     accepts_state := fun _ => true |}.

(** An environment in which the calls picked by [p] raise [e], and the
    others work. *)
Definition failing (p : Op -> bool) (e : exn) : Env :=
  {| faults := fun o => if p o then Some e else None;
     clock_time := clock_time quiet;
     clock_date := clock_date quiet;
     encode_geometry := encode_geometry quiet;
     decode_geometry := decode_geometry quiet;
     accepts_state := accepts_state quiet |}.

Definition fresh_slider : Ranged :=
  {| minimum := 0; maximum := 99; value := 0 |}.

Definition rating (v : Z) : Ranged :=
  {| minimum := 0; maximum := 4; value := v |}.

(** The window as the generated form leaves it, before any wiring. *)
Definition setupUi : Window :=
  {| form := {| altmans_sleep := fresh_slider;
                altmans_speech := fresh_slider;
                altmans_activity := fresh_slider;
                altmans_cheer := fresh_slider;
                altmans_confidence := fresh_slider;
                altmans_summary := fresh_slider;
                altmans_summary_enabled := true;
                altman_date := {| year := 2000; month := 1; day := 1 |};
                altman_time := {| hour := 0; minute := 0; second := 0 |} |};
     chrome := {| stackedWidget := 0;
                  geometry := {| frame_x := 0; frame_y := 0;
                                 frame_w := 476; frame_h := 175 |};
                  fixedSize := None;
                  windowState := [] |};
     wiring := {| currentChanged := []; triggered := []; valueChanged := [] |};
     settings := ∅;
     altmans_model := None;
     history := [] |}.

(** The same window with the five sliders rated. *)
Definition rated_window (sleep speech activity cheer confidence : Z) : Window :=
  with_form
    {| altmans_sleep := rating sleep;
       altmans_speech := rating speech;
       altmans_activity := rating activity;
       altmans_cheer := rating cheer;
       altmans_confidence := rating confidence;
       altmans_summary := fresh_slider;
       altmans_summary_enabled := false;
       altman_date := altman_date (form setupUi);
       altman_time := altman_time (form setupUi) |}
    setupUi.

(** *** The total, as the specification words it *)

(** What a slider value adds to the total: itself when it is greater
    than zero, and nothing otherwise. *)
Definition counted (v : Z) : Z := if 0 <? v then v else 0.

(** The sum of the values greater than zero among the five sliders of
    the form. *)
Definition zero_filtered_sum (f : Form) : Z :=
  counted (value (altmans_sleep f)) + counted (value (altmans_speech f)) +
  counted (value (altmans_activity f)) + counted (value (altmans_cheer f)) +
  counted (value (altmans_confidence f)).

(** The window once slider [s] was dragged to [v], before any slot
    runs. *)
Definition dragged_window (s : SliderId) (v : Z) (w : Window) : Window :=
  with_form (set_slider s (Ranged_setValue v (slider s (form w))) (form w)) w.

(** *** Further vocabulary *)

(** The sum of the values, each negative one counted as zero. *)
Definition clipped_sum (values : list Z) : Z :=
  fold_right (fun v acc => Z.max 0 v + acc) 0 values.

Definition is_summary_setValue (o : Op) : bool :=
  match o with SummarySetValue _ => true | _ => false end.

Definition is_read (key : string) (o : Op) : bool :=
  match o with
  | SettingsValue k => bool_decide (k = key)
  | _ => false
  end.

Definition is_any_write (o : Op) : bool :=
  match o with SettingsSetValue _ _ => true | _ => false end.

(** The reads of the list comprehension: each slider once for the test,
    and once more for its value when the test passes. *)
Definition summary_reads (f : Form) (sliders : list SliderId) : list Op :=
  flat_map (fun s => if positive (value (slider s f))
                     then [SliderValue s; SliderValue s]
                     else [SliderValue s]) sliders.

(** The form once the summary field was given [n]. *)
Definition summary_set (n : Z) (f : Form) : Form :=
  set_summary (Ranged_setValue n (altmans_summary f)) f.

(** A window whose sliders the form left wider than the ratings: one is
    negative and one is above 4. *)
Definition wide_window : Window :=
  with_form
    (set_slider Sleep {| minimum := -5; maximum := 99; value := -3 |}
       (set_slider Cheer {| minimum := 0; maximum := 99; value := 7 |}
          (form setupUi)))
    setupUi.

(** What [restore_state] leaves alone, [w0] being the window it started
    from: the settings store, the form, the wiring, the model, the page
    and the fixed size; and none of its calls writes a setting. *)
Definition only_frame_restored (w0 w : Window) : Prop :=
  settings w = settings w0 /\
  form w = form w0 /\
  wiring w = wiring w0 /\
  altmans_model w = altmans_model w0 /\
  stackedWidget (chrome w) = stackedWidget (chrome w0) /\
  fixedSize (chrome w) = fixedSize (chrome w0) /\
  exists d, history w = history w0 ++ d /\ count is_any_write d = 0%nat.

(** The calls made since [w0] start with [first], and no setting is read
    after it. *)
Definition read_once (first : Op) (w0 w : Window) : Prop :=
  exists d, history w = history w0 ++ first :: d /\
            forall key, count (is_read key) d = 0%nat.

(** A geometry blob of two bytes a field, and an environment that saves
    and restores with it. *)
Definition byte_of (z : Z) : Byte.byte :=
  default Byte.x00 (Byte.of_N (Z.to_N z)).

Definition two_bytes (z : Z) : bytes :=
  [byte_of (z / 256); byte_of (z mod 256)].

Definition frame_bytes (f : Frame) : bytes :=
  two_bytes (frame_x f) ++ two_bytes (frame_y f) ++
  two_bytes (frame_w f) ++ two_bytes (frame_h f).

Definition number (hi lo : Byte.byte) : Z :=
  Z.of_N (Byte.to_N hi) * 256 + Z.of_N (Byte.to_N lo).

Definition read_frame (b : bytes) : option Frame :=
  match b with
  | [x1; x0; y1; y0; w1; w0; h1; h0] =>
      Some {| frame_x := number x1 x0; frame_y := number y1 y0;
              frame_w := number w1 w0; frame_h := number h1 h0 |}
  | _ => None
  end.

Definition archive : Env :=
  {| faults := fun _ => None;
     clock_time := clock_time quiet;
     clock_date := clock_date quiet;
     encode_geometry := frame_bytes;
     decode_geometry := read_frame;
     accepts_state := fun _ => true |}.

(** A window that was moved, resized and given a tool bar layout, and a
    fresh one that finds the settings the first one saved. *)
Definition arranged : Window :=
  with_chrome
    {| stackedWidget := 1;
       geometry := {| frame_x := 120; frame_y := 80;
                      frame_w := 800; frame_h := 460 |};
       fixedSize := Some (800, 460);
       windowState := [Byte.x00; Byte.x2a; Byte.xff] |}
    setupUi.


(** *** The wiring the constructor makes *)

Definition no_wiring : Wiring :=
  {| currentChanged := []; triggered := []; valueChanged := [] |}.

Definition add_page_slot (slot : PageSlot) (g : Wiring) : Wiring :=
  {| currentChanged := currentChanged g ++ [slot];
     triggered := triggered g;
     valueChanged := valueChanged g |}.

Definition add_action_slot (a : Action) (slot : ActionSlot) (g : Wiring) : Wiring :=
  {| currentChanged := currentChanged g;
     triggered := triggered g ++ [(a, slot)];
     valueChanged := valueChanged g |}.

Definition add_value_slot (s : SliderId) (slot : ValueSlot) (g : Wiring) : Wiring :=
  {| currentChanged := currentChanged g;
     triggered := triggered g;
     valueChanged := valueChanged g ++ [(s, slot)] |}.

(** Every connection of the class, once, in the order of the
    constructor. *)
Definition wired_up : Wiring :=
  {| currentChanged := [bound_on_page_changed];
     triggered :=
       [(actionShowAltmanExam, lambda_change_stack_page 0);
        (actionShowAltmanTable, lambda_change_stack_page 1);
        (actionDelete, lambda_delete_selected_rows);
        (actionCommit, lambda_add_altmans_data);
        (actionShowAltmanExam, bound_switchone);
        (actionShowAltmanTable, bound_switchtwo)];
     valueChanged :=
       [(Sleep, bound_update_altmans_summary);
        (Speech, bound_update_altmans_summary);
        (Activity, bound_update_altmans_summary);
        (Cheer, bound_update_altmans_summary);
        (Confidence, bound_update_altmans_summary)] |}.

(** No [connect] raises. *)
Definition connects_work (env : Env) : Prop :=
  forall sig, faults env (Connect sig) = None.

(** The calls that build the window and its helpers do not raise. *)
Definition building_calls_work (env : Env) : Prop :=
  faults env SuperInit = None /\
  faults env NewUiMainWindow = None /\
  faults env SetupUi = None /\
  faults env NewDataManager = None /\
  faults env NewQSettings = None /\
  faults env NewWindowController = None /\
  faults env (SetWindowFlags FramelessWindowHint) = None.

(** The calls outside any [try] of the constructor do not raise. *)
Definition unhandled_calls_work (env : Env) : Prop :=
  building_calls_work env /\
  (forall table view, faults env (CreateAndSetModel table view) = None) /\
  (forall a, a <> actionCommit ->
     faults env (Connect (sig_triggered a)) = None) /\
  (forall s, faults env (Connect (sig_valueChanged s)) = None) /\
  faults env (SummarySetEnabled false) = None /\
  (forall s, faults env (SliderSetRange s 0 4) = None).

(** What moving slider [s] leaves alone, [w0] being the window before:
    everything but that slider, the summary value and the record of the
    calls, none of which goes to persistence. *)
Definition slider_only (s : SliderId) (w0 w : Window) : Prop :=
  settings w = settings w0 /\
  chrome w = chrome w0 /\
  wiring w = wiring w0 /\
  altmans_model w = altmans_model w0 /\
  (forall s', s' <> s -> slider s' (form w) = slider s' (form w0)) /\
  altman_date (form w) = altman_date (form w0) /\
  altman_time (form w) = altman_time (form w0) /\
  altmans_summary_enabled (form w) = altmans_summary_enabled (form w0) /\
  exists d, history w = history w0 ++ d /\ count is_persistence d = 0%nat.

(** An environment in which everything raises that a [try] of the
    constructor covers, and nothing else. *)
Definition handled_only (o : Op) : bool :=
  match o with
  | Connect sig_currentChanged | Connect (sig_triggered actionCommit)
  | SettingsValue _ | SettingsSetValue _ _
  | RestoreGeometry _ | RestoreState _
  | SliderValue _ | SummarySetValue _ => true
  | _ => false
  end.

(** The menu action that shows a page, and the size the window is fixed
    at for it. *)
Definition action_of (p : Page) : Action :=
  match p with
  | onepage => actionShowAltmanExam
  | twopage => actionShowAltmanTable
  end.

Definition size_of (p : Page) : Z * Z :=
  match p with
  | onepage => (476, 175)
  | twopage => (800, 460)
  end.

(** The form after slider [s] was dragged to [v]. *)
Definition dragged (s : SliderId) (v : Z) (f : Form) : Form :=
  set_slider s (Ranged_setValue v (slider s f)) f.

(** The page the stack shows once asked for page [i] while showing
    [current]: an index it does not have is ignored. *)
Definition shown_page (i current : Z) : Z :=
  if (0 <=? i) && (i <? 2) then i else current.

(** The settings store holds [v] as the last page, the stack shows page
    [current], and a change of page has a slot to go to. *)
Definition page_found (v : QVariant) (current : Z) (w : Window) : Prop :=
  settings w !! "lastPageIndex" = Some v /\
  stackedWidget (chrome w) = current /\
  currentChanged (wiring w) <> [].

(** The stack, asked for page [n] while showing [current] with [v]
    saved, shows what it can, and the page it changed to is saved. *)
Definition page_settled (v : QVariant) (n current : Z) (w : Window) : Prop :=
  stackedWidget (chrome w) = shown_page n current /\
  settings w !! "lastPageIndex" =
    Some (if shown_page n current =? current then v else VInt n).

(** The page is [n], and [n] is saved. *)
Definition page_changed_to (n : Z) (w : Window) : Prop :=
  stackedWidget (chrome w) = n /\
  settings w !! "lastPageIndex" = Some (VInt n).

(** A window that finds a page index saved that no C [int] holds. *)
Definition overflown : Window :=
  with_settings (<["lastPageIndex" := VInt (2 ^ 32 + 1)]> ∅) setupUi.

(** A window that finds page 1 saved. *)
Definition left_on_table : Window :=
  with_settings (<["lastPageIndex" := VInt 1]> ∅) setupUi.

(** ** Reasoning about computations *)

Section Logic.

Variable env : Env.

Lemma bind_returned {A B} (m : M A) (k : A -> M B) w b w' :
  bind m k w = (Returned b, w') ->
  exists a w1, m w = (Returned a, w1) /\ k a w1 = (Returned b, w').
Proof.
  unfold bind. destruct (m w) as [[a|e] w1]; intros H.
  - exists a, w1. split; [reflexivity | exact H].
  - discriminate H.
Qed.

Lemma after_bind {A B} (m : M A) (k : A -> M B) w a w1 :
  m w = (Returned a, w1) -> bind m k w = k a w1.
Proof. unfold bind. intros ->. reflexivity. Qed.

Lemma keeps_ret {A} P (a : A) : keeps P (ret a).
Proof. intros w H. exact H. Qed.

Lemma keeps_raise {A} P e : keeps P (@raise A e).
Proof. intros w H. exact H. Qed.

Lemma keeps_get P : keeps P get.
Proof. intros w H. exact H. Qed.

Lemma keeps_bind {A B} P (m : M A) (k : A -> M B) :
  keeps P m -> (forall a, keeps P (k a)) -> keeps P (bind m k).
Proof.
  intros Hm Hk w H. specialize (Hm w H). unfold after, bind in *.
  destruct (m w) as [[a|e] w1]; simpl in *.
  - apply (Hk a w1 Hm).
  - exact Hm.
Qed.

Lemma keeps_try {A} P (body : M A) handler :
  keeps P body -> (forall e, keeps P (handler e)) ->
  keeps P (try_except body handler).
Proof.
  intros Hm Hk w H. specialize (Hm w H). unfold after, try_except in *.
  destruct (body w) as [[a|e] w1]; simpl in *.
  - exact Hm.
  - apply (Hk e w1 Hm).
Qed.

Lemma keeps_for_each {A} P (l : list A) body :
  (forall x, keeps P (body x)) -> keeps P (for_each l body).
Proof.
  intros Hb. induction l as [|x l IH]; simpl.
  - apply keeps_ret.
  - apply keeps_bind; [apply Hb | intros _; exact IH].
Qed.

Lemma keeps_modify P f :
  (forall w, P w -> P (f w)) -> keeps P (modify f).
Proof. intros Hf w H. apply Hf, H. Qed.

Lemma keeps_call P o :
  (forall w, P w -> P (MainWindow.record o w)) -> keeps P (MainWindow.call env o).
Proof.
  intros Hf w H. unfold after, MainWindow.call.
  destruct (faults env o); simpl; apply Hf, H.
Qed.

Lemma keeps_hoare {A} P (m : M A) : keeps P m -> hoare P m P.
Proof. intros Hm w a w' H E. specialize (Hm w H). rewrite E in Hm. exact Hm. Qed.

Lemma hoare_bind {A B} P R Q (m : M A) (k : A -> M B) :
  hoare P m R -> (forall a, hoare R (k a) Q) -> hoare P (bind m k) Q.
Proof.
  intros Hm Hk w b w' H E.
  apply bind_returned in E as (a & w1 & E1 & E2).
  eapply Hk; [eapply Hm; eassumption | exact E2].
Qed.

Lemma no_raise_try (body : M unit) handler :
  (forall e, no_raise (handler e)) -> no_raise (try_except body handler).
Proof.
  intros Hh w. unfold outcome, try_except.
  destruct (body w) as [[[]|e] w1]; simpl.
  - reflexivity.
  - apply Hh.
Qed.

Lemma no_raise_logger_error msg : no_raise (MainWindow.logger_error msg).
Proof. intros w. reflexivity. Qed.

Lemma no_raise_bind (m k : M unit) :
  no_raise m -> no_raise k -> no_raise (m ;; k).
Proof.
  intros Hm Hk w. specialize (Hm w). unfold outcome, bind in *.
  destruct (m w) as [[[]|e] w1]; simpl in *.
  - apply Hk.
  - discriminate Hm.
Qed.

End Logic.

Lemma keeps_positive_values env P l :
  (forall s w, P w -> P (MainWindow.record (SliderValue s) w)) ->
  keeps P (MainWindow.positive_values env l).
Proof.
  intros Hr.
  assert (Hv : forall s, keeps P (MainWindow.slider_value env s)).
  { intros s. unfold MainWindow.slider_value.
    apply keeps_bind; [apply keeps_call; intros w; apply Hr | intros _].
    apply keeps_bind; [apply keeps_get | intros w; apply keeps_ret]. }
  induction l as [|s l IH]; simpl.
  - apply keeps_ret.
  - apply keeps_bind; [apply Hv | intros c].
    destruct (0 <? c); [| exact IH].
    apply keeps_bind; [apply Hv | intros v].
    apply keeps_bind; [exact IH | intros vs; apply keeps_ret].
Qed.

(** Unfolds a method down to [call]s and [modify]s and splits along the
    structure; [leaf] closes what is left at each state change. *)
Ltac keeps_walk leaf :=
  repeat first
    [ apply keeps_positive_values; intros ? ? ?; leaf
    | apply keeps_ret
    | apply keeps_raise
    | apply keeps_get
    | apply keeps_bind; [| intros ?]
    | apply keeps_try; [| intros ?]
    | apply keeps_for_each; intros ?
    | apply keeps_call; intros ? ?; leaf
    | apply keeps_modify; intros ? ?; leaf
    | match goal with
      | |- keeps _ (if ?b then _ else _) => destruct b
      | |- keeps _ (match ?x with _ => _ end) => destruct x
      | |- keeps _ (let '(_, _) := ?x in _) => destruct x
      end
    | progress unfold
        MainWindow.logger_error,
        MainWindow.connect_currentChanged, MainWindow.connect_triggered,
        MainWindow.connect_valueChanged, MainWindow.settings_value,
        MainWindow.settings_value_int, MainWindow.settings_setValue,
        MainWindow.QTime_currentTime, MainWindow.QDate_currentDate,
        MainWindow.altman_time_setTime, MainWindow.altman_date_setDate,
        MainWindow.slider_value, MainWindow.altmans_summary_setValue,
        MainWindow.altmans_summary_setEnabled, MainWindow.saveGeometry,
        MainWindow.saveState, MainWindow.restoreGeometry,
        MainWindow.restoreState, MainWindow.resize, MainWindow.setFixedSize,
        MainWindow.on_page_changed, MainWindow.emit_currentChanged,
        MainWindow.show_page, MainWindow.stackedWidget_setCurrentIndex,
        MainWindow.stackedWidget_setCurrentWidget,
        MainWindow.create_and_set_model, MainWindow.add_altmans_data,
        MainWindow.delete_selected_rows, MainWindow.change_stack_page,
        MainWindow.app_operations, MainWindow.switchone, MainWindow.switchtwo,
        MainWindow.switch_page_view_setup, MainWindow.stack_navigation,
        MainWindow.delete_group, MainWindow.setup_models,
        MainWindow.save_state, MainWindow.restore_state,
        MainWindow.closeEvent, MainWindow.run_action_slot,
        MainWindow.emit_triggered, MainWindow.update_altmans_summary,
        MainWindow.emit_valueChanged, MainWindow.slider_setRange,
        MainWindow.altman_table_commit, MainWindow.move_slider,
        MainWindow.handle, MainWindow.__init__ ].

(** ** The summary *)

Section Summary.

Variable env : Env.
Hypothesis works : summary_calls_work env.

Lemma positive_values_run (l : list SliderId) (w : Window) :
  exists d,
    MainWindow.positive_values env l w =
    (Returned (List.filter positive (map (fun s => value (slider s (form w))) l)),
     with_history (history w ++ d) w).
Proof.
  destruct works as [Hread _].
  revert w. induction l as [|s l IH]; intros w; simpl.
  - exists []. rewrite app_nil_r. destruct w; reflexivity.
  - unfold bind at 1. unfold MainWindow.slider_value at 1.
    unfold bind at 1, MainWindow.call at 1. rewrite Hread. simpl.
    unfold positive at 1.
    destruct (0 <? value (slider s (form w))) eqn:E.
    + unfold bind at 1. unfold MainWindow.slider_value at 1.
      unfold bind at 1, MainWindow.call at 1. rewrite Hread. simpl.
      unfold bind at 1.
      destruct (IH (MainWindow.record (SliderValue s)
                      (MainWindow.record (SliderValue s) w))) as [d ->].
      exists ([SliderValue s; SliderValue s] ++ d). simpl.
      rewrite <- !app_assoc. reflexivity.
    + destruct (IH (MainWindow.record (SliderValue s) w)) as [d ->].
      exists ([SliderValue s] ++ d). simpl.
      rewrite <- !app_assoc. reflexivity.
Qed.

Lemma update_altmans_summary_run (w : Window) :
  exists d,
    MainWindow.update_altmans_summary env w =
    (Returned tt,
     with_history
       (history w ++ d ++ [SummarySetValue (positive_sum (slider_values (form w)))])
       (with_form
          (set_summary
             (Ranged_setValue (positive_sum (slider_values (form w)))
                              (altmans_summary (form w)))
             (form w)) w)).
Proof.
  destruct (positive_values_run MainWindow.form_sliders w) as [d E].
  destruct works as [_ Hwrite].
  unfold MainWindow.update_altmans_summary, try_except, bind.
  rewrite E. unfold MainWindow.altmans_summary_setValue, bind, MainWindow.call.
  rewrite Hwrite. simpl.
  exists d. unfold MainWindow.record. simpl. rewrite <- app_assoc. reflexivity.
Qed.

End Summary.

Lemma count_app p l k : count p (l ++ k) = (count p l + count p k)%nat.
Proof. unfold count. rewrite List.filter_app, length_app. reflexivity. Qed.

Lemma calls_since_app w w' d :
  history w' = history w ++ d -> calls_since w w' = d.
Proof. intros E. unfold calls_since. rewrite E. apply drop_app_length. Qed.

Lemma positive_sum_five a b c d e :
  0 <= a <= 4 -> 0 <= b <= 4 -> 0 <= c <= 4 -> 0 <= d <= 4 -> 0 <= e <= 4 ->
  positive_sum [a; b; c; d; e] = a + b + c + d + e.
Proof.
  intros Ha Hb Hc Hd He. unfold positive_sum, MainWindow.py_sum, positive.
  simpl.
  destruct (Z.ltb_spec 0 a), (Z.ltb_spec 0 b), (Z.ltb_spec 0 c),
    (Z.ltb_spec 0 d), (Z.ltb_spec 0 e); simpl; lia.
Qed.

Lemma slider_values_five f :
  slider_values f =
  [value (altmans_sleep f); value (altmans_speech f);
   value (altmans_activity f); value (altmans_cheer f);
   value (altmans_confidence f)].
Proof. reflexivity. Qed.

Lemma positive_sum_sliders f :
  (forall s, 0 <= value (slider s f) <= 4) ->
  positive_sum (slider_values f) =
  value (altmans_sleep f) + value (altmans_speech f) +
  value (altmans_activity f) + value (altmans_cheer f) +
  value (altmans_confidence f).
Proof.
  intros H. rewrite slider_values_five.
  apply positive_sum_five;
    [apply (H Sleep) | apply (H Speech) | apply (H Activity)
    | apply (H Cheer) | apply (H Confidence)].
Qed.

Lemma summary_after_shown env w :
  summary_calls_work env ->
  summary_after env w =
  qBound (minimum (altmans_summary (form w)))
         (positive_sum (slider_values (form w)))
         (maximum (altmans_summary (form w))).
Proof.
  intros Hw. unfold summary_after.
  destruct (update_altmans_summary_run env Hw w) as [h ->]. reflexivity.
Qed.

(** C1. For five slider values each in [0,4], [update_altmans_summary]
    returns, the last call it makes is [setValue] on the summary field
    with the sum of the values greater than zero, and the field then
    holds that sum; the ratings (0,2,0,3,4) give 9, (0,0,0,0,0) give 0 and
    (4,4,4,4,4) give 20. *)
Theorem update_altmans_summary_writes_positive_sum env w :
  summary_calls_work env ->
  summary_fits w ->
  (forall s, 0 <= value (slider s (form w)) <= 4) ->
  outcome (MainWindow.update_altmans_summary env w) = Returned tt /\
  last (calls_since w (after (MainWindow.update_altmans_summary env w))) =
    Some (SummarySetValue (positive_sum (slider_values (form w)))) /\
  summary_after env w = positive_sum (slider_values (form w)) /\
  summary_after quiet (rated_window 0 2 0 3 4) = 9 /\
  summary_after quiet (rated_window 0 0 0 0 0) = 0 /\
  summary_after quiet (rated_window 4 4 4 4 4) = 20.
Proof.
  intros Hw [Hlo Hhi] Hv. split; [| split; [| split]].
  - destruct (update_altmans_summary_run env Hw w) as [d ->]. reflexivity.
  - destruct (update_altmans_summary_run env Hw w) as [d ->].
    unfold after. simpl.
    erewrite calls_since_app; [apply last_snoc | reflexivity].
  - rewrite (summary_after_shown env w Hw).
    rewrite (positive_sum_sliders (form w) Hv).
    pose proof (Hv Sleep). pose proof (Hv Speech). pose proof (Hv Activity).
    pose proof (Hv Cheer). pose proof (Hv Confidence). simpl in *.
    unfold qBound. lia.
  - repeat split; vm_compute; reflexivity.
Qed.

Lemma quiet_summary_calls_work : summary_calls_work quiet.
Proof. split; intros; reflexivity. Qed.

Lemma rated_window_in_range a b c d e :
  0 <= a <= 4 -> 0 <= b <= 4 -> 0 <= c <= 4 -> 0 <= d <= 4 -> 0 <= e <= 4 ->
  forall s, 0 <= value (slider s (form (rated_window a b c d e))) <= 4.
Proof. intros ? ? ? ? ? []; simpl; assumption. Qed.

Lemma update_altmans_summary_writes_positive_sum_witness :
  summary_after quiet (rated_window 1 0 2 4 0) = 7.
Proof.
  assert (Hfit : summary_fits (rated_window 1 0 2 4 0))
    by (split; simpl; lia).
  assert (Hv : forall s,
             0 <= value (slider s (form (rated_window 1 0 2 4 0))) <= 4)
    by (apply rated_window_in_range; lia).
  destruct (update_altmans_summary_writes_positive_sum quiet
              (rated_window 1 0 2 4 0) quiet_summary_calls_work Hfit Hv)
    as (_ & _ & E & _).
  rewrite E. reflexivity.
Defined.

(** C7. On five slider values each in [0,4], the sum over the values
    strictly greater than zero is the plain sum of the five, and so is
    what [update_altmans_summary] leaves in the summary field. *)
Theorem positive_sum_is_plain_sum env w :
  summary_calls_work env ->
  summary_fits w ->
  (forall s, 0 <= value (slider s (form w)) <= 4) ->
  positive_sum (slider_values (form w)) =
    MainWindow.py_sum (slider_values (form w)) /\
  summary_after env w =
    value (altmans_sleep (form w)) + value (altmans_speech (form w)) +
    value (altmans_activity (form w)) + value (altmans_cheer (form w)) +
    value (altmans_confidence (form w)).
Proof.
  intros Hw [Hlo Hhi] Hv.
  pose proof (positive_sum_sliders (form w) Hv) as E.
  pose proof (Hv Sleep). pose proof (Hv Speech). pose proof (Hv Activity).
  pose proof (Hv Cheer). pose proof (Hv Confidence). simpl in *.
  split.
  - rewrite E. rewrite slider_values_five. unfold MainWindow.py_sum. simpl. lia.
  - rewrite (summary_after_shown env w Hw), E. unfold qBound. lia.
Qed.

Lemma positive_sum_is_plain_sum_witness :
  positive_sum [0; 2; 0; 3; 4] = MainWindow.py_sum [0; 2; 0; 3; 4] /\
  summary_after quiet (rated_window 0 2 0 3 4) = 0 + 2 + 0 + 3 + 4.
Proof.
  assert (Hfit : summary_fits (rated_window 0 2 0 3 4))
    by (split; simpl; lia).
  assert (Hv : forall s,
             0 <= value (slider s (form (rated_window 0 2 0 3 4))) <= 4)
    by (apply rated_window_in_range; lia).
  exact (positive_sum_is_plain_sum quiet (rated_window 0 2 0 3 4)
           quiet_summary_calls_work Hfit Hv).
Defined.

(** *** What the recomputation leaves alone *)

Lemma summary_only_refl w : summary_only w w.
Proof.
  repeat split; try reflexivity.
  exists []. split; [symmetry; apply app_nil_r | reflexivity].
Qed.

Lemma summary_only_record w0 w o :
  is_persistence o = false ->
  summary_only w0 w -> summary_only w0 (MainWindow.record o w).
Proof.
  intros Ho (H1 & H2 & H3 & H4 & H5 & H6 & H7 & H8 & H9 & H10 & d & Hd & Hc).
  repeat split; try assumption.
  exists (d ++ [o]). split.
  - simpl. rewrite Hd, app_assoc. reflexivity.
  - rewrite count_app, Hc. unfold count. simpl. rewrite Ho. reflexivity.
Qed.

Lemma summary_only_setValue w0 w n :
  summary_only w0 w ->
  summary_only w0
    (with_form (set_summary (Ranged_setValue n (altmans_summary (form w)))
                            (form w)) w).
Proof.
  intros (H1 & H2 & H3 & H4 & H5 & H6 & H7 & H8 & H9 & H10 & Hd).
  repeat split; assumption.
Qed.

Lemma keeps_update_altmans_summary env P :
  (forall o w, is_persistence o = false -> P w -> P (MainWindow.record o w)) ->
  (forall n w, P w ->
     P (with_form (set_summary (Ranged_setValue n (altmans_summary (form w)))
                               (form w)) w)) ->
  keeps P (MainWindow.update_altmans_summary env).
Proof.
  intros Hr Hs. unfold MainWindow.update_altmans_summary.
  apply keeps_try.
  - apply keeps_bind.
    + apply keeps_positive_values. intros s w. apply Hr. reflexivity.
    + intros values.
      keeps_walk ltac:(first [apply Hr; [reflexivity | assumption]
                             | apply Hs; assumption]).
  - intros e.
    keeps_walk ltac:(apply Hr; [reflexivity | assumption]).
Qed.

(** C9. [update_altmans_summary] changes the summary field only: the
    settings store is as before, none of its calls goes to the settings
    store or the database, and the date, the time and the five sliders
    are unchanged, as are the frame, the pages, the wiring and the
    model. *)
Theorem update_altmans_summary_frame env w :
  let w' := after (MainWindow.update_altmans_summary env w) in
  settings w' = settings w /\
  count is_persistence (calls_since w w') = 0%nat /\
  (forall s, slider s (form w') = slider s (form w)) /\
  altman_date (form w') = altman_date (form w) /\
  altman_time (form w') = altman_time (form w) /\
  altmans_summary_enabled (form w') = altmans_summary_enabled (form w) /\
  chrome w' = chrome w /\
  wiring w' = wiring w /\
  altmans_model w' = altmans_model w.
Proof.
  intros w'.
  assert (H : summary_only w w').
  { apply (keeps_update_altmans_summary env (summary_only w)).
    - intros o w1 Ho. apply summary_only_record, Ho.
    - intros n w1. apply summary_only_setValue.
    - apply summary_only_refl. }
  destruct H as (H1 & H2 & H3 & H4 & H5 & H6 & H7 & H8 & H9 & H10 & d & Hd & Hc).
  rewrite (calls_since_app w w' d Hd).
  repeat split; assumption.
Qed.

(** ** The range of the sliders *)

Lemma returned_after {A} (m : M A) w a w' :
  m w = (Returned a, w') -> after (m w) = w'.
Proof. intros ->. reflexivity. Qed.

Lemma keeps_bind_get {A} P (k : Window -> M A) :
  (forall w, P w -> P (after (k w w))) -> keeps P (bind get k).
Proof. intros H w Hw. apply (H w Hw). Qed.

Lemma hoare_trivial {A} (P : Window -> Prop) (m : M A) :
  hoare P m (fun _ => True).
Proof. intros w a w' _ _. exact I. Qed.

Lemma slider_set_slider s s' r f :
  slider s (set_slider s' r f) = if decide (s = s') then r else slider s f.
Proof. destruct s, s'; reflexivity. Qed.

Lemma rated_set_slider s s' r w :
  rated s w ->
  (minimum r = 0 /\ maximum r = 4 /\ 0 <= value r <= 4) ->
  rated s (with_form (set_slider s' r (form w)) w).
Proof.
  intros Hs Hr. unfold rated. simpl. rewrite slider_set_slider.
  destruct (decide (s = s')); [exact Hr | exact Hs].
Qed.

Lemma rated_setRange_0_4 r :
  let r' := Ranged_setRange 0 4 r in
  minimum r' = 0 /\ maximum r' = 4 /\ 0 <= value r' <= 4.
Proof. simpl. unfold qBound. lia. Qed.

Lemma rated_setValue s w v :
  rated s w ->
  let r' := Ranged_setValue v (slider s (form w)) in
  minimum r' = 0 /\ maximum r' = 4 /\ 0 <= value r' <= 4.
Proof. intros (Hlo & Hhi & Hv). simpl. rewrite Hlo, Hhi. unfold qBound. lia. Qed.

Section Ratings.

Variable env : Env.

Lemma rated_update_altmans_summary s :
  keeps (rated s) (MainWindow.update_altmans_summary env).
Proof.
  apply keeps_update_altmans_summary; intros; assumption.
Qed.

Lemma rated_emit_valueChanged s s' :
  keeps (rated s) (MainWindow.emit_valueChanged env s').
Proof.
  unfold MainWindow.emit_valueChanged.
  apply keeps_bind; [apply keeps_get | intros w0].
  apply keeps_for_each. intros [x []]. apply rated_update_altmans_summary.
Qed.

Lemma rated_move_slider s s' v :
  keeps (rated s) (MainWindow.move_slider env s' v).
Proof.
  unfold MainWindow.move_slider. apply keeps_bind_get. intros w Hw.
  destruct (value (Ranged_setValue v (slider s' (form w))) =?
            value (slider s' (form w))); [exact Hw |].
  unfold after, bind, modify. apply rated_emit_valueChanged.
  destruct (decide (s = s')) as [<-|Hne].
  - apply rated_set_slider; [exact Hw | apply rated_setValue, Hw].
  - unfold rated. simpl. rewrite slider_set_slider.
    destruct (decide (s = s')); [contradiction | exact Hw].
Qed.

Lemma rated_just_set s r w :
  (minimum r = 0 /\ maximum r = 4 /\ 0 <= value r <= 4) ->
  rated s (with_form (set_slider s r (form w)) w).
Proof.
  intros Hr. unfold rated. simpl. rewrite slider_set_slider.
  destruct (decide (s = s)); [exact Hr | contradiction].
Qed.

Lemma rated_slider_setRange s s' :
  keeps (rated s) (MainWindow.slider_setRange env s' 0 4).
Proof.
  unfold MainWindow.slider_setRange.
  apply keeps_bind; [apply keeps_call; intros; assumption | intros _].
  apply keeps_bind_get. intros w Hw.
  assert (Hset : rated s
            (with_form (set_slider s' (Ranged_setRange 0 4 (slider s' (form w)))
                                   (form w)) w))
    by (apply rated_set_slider; [exact Hw | apply rated_setRange_0_4]).
  unfold after, bind, modify.
  destruct (value (Ranged_setRange 0 4 (slider s' (form w))) =?
            value (slider s' (form w))); [exact Hset |].
  apply rated_emit_valueChanged, Hset.
Qed.

Lemma slider_setRange_rates s :
  hoare (fun _ => True) (MainWindow.slider_setRange env s 0 4) (rated s).
Proof.
  intros w a w' _ E. unfold MainWindow.slider_setRange in E.
  apply bind_returned in E as (u & w1 & _ & E).
  apply returned_after in E. rewrite <- E. clear E.
  assert (Hset : rated s
            (with_form (set_slider s (Ranged_setRange 0 4 (slider s (form w1)))
                                   (form w1)) w1))
    by (apply rated_just_set, rated_setRange_0_4).
  unfold after, bind, get, modify.
  destruct (value (Ranged_setRange 0 4 (slider s (form w1))) =?
            value (slider s (form w1))); [exact Hset |].
  apply rated_emit_valueChanged, Hset.
Qed.

Lemma for_each_setRange_rates l :
  hoare (fun _ => True)
    (for_each l (fun slider => MainWindow.slider_setRange env slider 0 4))
    (fun w => Forall (fun s => rated s w) l).
Proof.
  induction l as [|s l IH]; intros w a w' _ E.
  - constructor.
  - simpl in E. apply bind_returned in E as (u & w1 & E1 & E2).
    constructor.
    + apply (slider_setRange_rates s) in E1; [| exact I].
      assert (Hk : keeps (rated s)
                (for_each l (fun slider =>
                   MainWindow.slider_setRange env slider 0 4)))
        by (apply keeps_for_each; intros x; apply rated_slider_setRange).
      specialize (Hk w1 E1). rewrite E2 in Hk. exact Hk.
    + apply (IH w1 a w' I E2).
Qed.

Lemma altman_table_commit_rates :
  hoare (fun _ => True) (MainWindow.altman_table_commit env) all_rated.
Proof.
  unfold MainWindow.altman_table_commit.
  eapply hoare_bind; [apply hoare_trivial | intros _].
  eapply hoare_bind; [apply hoare_trivial | intros _].
  eapply hoare_bind; [apply for_each_setRange_rates | intros _].
  intros w a w' H E s.
  assert (Hs : rated s w).
  { apply (proj1 (List.Forall_forall _ _) H). destruct s; simpl; tauto. }
  clear H. revert w a w' Hs E. apply keeps_hoare.
  keeps_walk assumption.
Qed.

Lemma all_rated_init :
  hoare (fun _ => True) (MainWindow.__init__ env) all_rated.
Proof.
  unfold MainWindow.__init__.
  do 13 (eapply hoare_bind; [apply hoare_trivial | intros _]).
  eapply hoare_bind; [apply altman_table_commit_rates | intros _].
  intros w a w' H E s. specialize (H s). revert w a w' H E.
  apply keeps_hoare. keeps_walk assumption.
Qed.

Lemma rated_handle s ev : keeps (rated s) (MainWindow.handle env ev).
Proof.
  destruct ev as [s' v | a | d | t |]; simpl.
  - apply rated_move_slider.
  - keeps_walk assumption.
  - keeps_walk assumption.
  - keeps_walk assumption.
  - keeps_walk assumption.
Qed.

End Ratings.

Lemma reachable_all_rated env w0 w :
  MainWindow.reachable env w0 w -> all_rated w.
Proof.
  intros H. induction H as [w E | w ev H IH]; intros s.
  - apply (all_rated_init env w0 tt w I E s).
  - apply (rated_handle env s ev w (IH s)).
Qed.

(** C8. Once the constructor has returned, each of the five sliders has
    the range [0,4] and holds a value in it, and this stays so after
    every event the window handles; these are the values the summary
    recomputation and the commit handler read from then on. *)
Theorem sliders_stay_in_range env w0 w :
  MainWindow.reachable env w0 w ->
  forall s,
    minimum (slider s (form w)) = 0 /\
    maximum (slider s (form w)) = 4 /\
    0 <= value (slider s (form w)) <= 4.
Proof. intros H s. apply (reachable_all_rated env w0 w H s). Qed.

Lemma sliders_stay_in_range_witness :
  let w := after (MainWindow.handle quiet (MainWindow.SliderMoved Cheer 9)
                    (after (MainWindow.__init__ quiet setupUi))) in
  minimum (slider Cheer (form w)) = 0 /\
  maximum (slider Cheer (form w)) = 4 /\
  0 <= value (slider Cheer (form w)) <= 4.
Proof.
  apply (sliders_stay_in_range quiet setupUi).
  apply MainWindow.reach_event. apply MainWindow.reach_init.
  vm_compute. reflexivity.
Defined.

(** ** The summary follows the sliders *)

Lemma no_raise_for_each {A} (l : list A) body :
  (forall x, no_raise (body x)) -> no_raise (for_each l body).
Proof.
  intros Hb. induction l as [|x l IH]; simpl.
  - intros w. reflexivity.
  - apply no_raise_bind; [apply Hb | exact IH].
Qed.

Lemma no_raise_update_altmans_summary env :
  no_raise (MainWindow.update_altmans_summary env).
Proof. apply no_raise_try. intros e. apply no_raise_logger_error. Qed.

Section Following.

Variable env : Env.
Hypothesis works : summary_calls_work env.

Lemma update_shows_sum w :
  all_rated w -> summary_fits w ->
  shows_sum (after (MainWindow.update_altmans_summary env w)).
Proof.
  intros Hr [Hlo Hhi].
  destruct (update_altmans_summary_run env works w) as [h E].
  rewrite E. unfold after. simpl. split; [| split].
  - exact Hr.
  - split; assumption.
  - unfold synced. simpl.
    change (slider_values (set_summary _ (form w)))
      with (slider_values (form w)).
    assert (Hv : forall s, 0 <= value (slider s (form w)) <= 4)
      by (intros s; apply (Hr s)).
    rewrite (positive_sum_sliders (form w) Hv).
    pose proof (Hv Sleep). pose proof (Hv Speech). pose proof (Hv Activity).
    pose proof (Hv Cheer). pose proof (Hv Confidence). simpl in *.
    unfold qBound. lia.
Qed.

Lemma shows_sum_update :
  keeps shows_sum (MainWindow.update_altmans_summary env).
Proof. intros w (Hr & Hf & _). apply update_shows_sum; assumption. Qed.

Lemma emit_valueChanged_shows_sum s w :
  wired s w -> all_rated w -> summary_fits w ->
  outcome (MainWindow.emit_valueChanged env s w) = Returned tt /\
  shows_sum (after (MainWindow.emit_valueChanged env s w)).
Proof.
  intros Hw Hr Hf. split.
  - unfold MainWindow.emit_valueChanged, bind, get.
    apply no_raise_for_each. intros [x []].
    apply no_raise_update_altmans_summary.
  - unfold MainWindow.emit_valueChanged, bind, get.
    assert (Hin : (s, bound_update_altmans_summary) ∈
              filter (fun c : SliderId * ValueSlot => bool_decide (fst c = s))
                     (valueChanged (wiring w))).
    { apply list_elem_of_filter. split.
      - apply bool_decide_pack. reflexivity.
      - apply list_elem_of_In, Hw. }
    destruct (filter _ (valueChanged (wiring w))) as [|[x []] l].
    + inversion Hin.
    + simpl. unfold after, bind.
      pose proof (no_raise_update_altmans_summary env w) as Hn.
      pose proof (update_shows_sum w Hr Hf) as Hs.
      unfold outcome, after in Hn, Hs.
      destruct (MainWindow.update_altmans_summary env w) as [[[]|e] w1];
        simpl in *; [| discriminate Hn].
      apply (keeps_for_each shows_sum l); [| exact Hs].
      intros [y []]. apply shows_sum_update.
Qed.

End Following.

Section Wiring.

Variable env : Env.

Lemma summary_fits_init : keeps summary_fits (MainWindow.__init__ env).
Proof. keeps_walk assumption. Qed.

Lemma summary_fits_handle ev : keeps summary_fits (MainWindow.handle env ev).
Proof. destruct ev; keeps_walk assumption. Qed.

Lemma wired_handle s ev : keeps (wired s) (MainWindow.handle env ev).
Proof. destruct ev; keeps_walk assumption. Qed.

Lemma wired_connect_valueChanged s s' slot :
  keeps (wired s) (MainWindow.connect_valueChanged env s' slot).
Proof.
  keeps_walk ltac:(first [assumption
                         | unfold wired in *; simpl; apply in_or_app; left;
                           assumption]).
Qed.

Lemma connect_valueChanged_wires s :
  hoare (fun _ => True)
    (MainWindow.connect_valueChanged env s bound_update_altmans_summary)
    (wired s).
Proof.
  intros w a w' _ E. unfold MainWindow.connect_valueChanged in E.
  apply bind_returned in E as (u & w1 & _ & E).
  unfold modify in E. injection E as E. subst w'.
  unfold wired. simpl. apply in_or_app. right. left. reflexivity.
Qed.

Lemma altman_table_commit_wires s :
  hoare (fun _ => True) (MainWindow.altman_table_commit env) (wired s).
Proof.
  unfold MainWindow.altman_table_commit.
  do 3 (eapply hoare_bind; [apply hoare_trivial | intros _]).
  destruct s.
  - eapply hoare_bind; [apply connect_valueChanged_wires | intros _].
    apply keeps_hoare.
    repeat (apply keeps_bind; [apply wired_connect_valueChanged | intros _]).
    apply wired_connect_valueChanged.
  - eapply hoare_bind; [apply hoare_trivial | intros _].
    eapply hoare_bind; [apply connect_valueChanged_wires | intros _].
    apply keeps_hoare.
    repeat (apply keeps_bind; [apply wired_connect_valueChanged | intros _]).
    apply wired_connect_valueChanged.
  - do 2 (eapply hoare_bind; [apply hoare_trivial | intros _]).
    eapply hoare_bind; [apply connect_valueChanged_wires | intros _].
    apply keeps_hoare.
    repeat (apply keeps_bind; [apply wired_connect_valueChanged | intros _]).
    apply wired_connect_valueChanged.
  - do 3 (eapply hoare_bind; [apply hoare_trivial | intros _]).
    eapply hoare_bind; [apply connect_valueChanged_wires | intros _].
    apply keeps_hoare. apply wired_connect_valueChanged.
  - do 4 (eapply hoare_bind; [apply hoare_trivial | intros _]).
    apply connect_valueChanged_wires.
Qed.

Lemma wired_init s :
  hoare (fun _ => True) (MainWindow.__init__ env) (wired s).
Proof.
  unfold MainWindow.__init__.
  do 13 (eapply hoare_bind; [apply hoare_trivial | intros _]).
  eapply hoare_bind; [apply altman_table_commit_wires | intros _].
  apply keeps_hoare. keeps_walk assumption.
Qed.

Lemma reachable_wired w0 w s : MainWindow.reachable env w0 w -> wired s w.
Proof.
  intros H. induction H as [w E | w ev H IH].
  - apply (wired_init s w0 tt w I E).
  - apply (wired_handle s ev w IH).
Qed.

Lemma reachable_summary_fits w0 w :
  summary_fits w0 -> MainWindow.reachable env w0 w -> summary_fits w.
Proof.
  intros H0 H. induction H as [w E | w ev H IH].
  - pose proof (summary_fits_init w0 H0) as Hk. rewrite E in Hk. exact Hk.
  - apply (summary_fits_handle ev w IH).
Qed.

End Wiring.

Lemma rated_move_slider_state s' s v w :
  rated s' w -> rated s w ->
  rated s'
    (with_form (set_slider s (Ranged_setValue v (slider s (form w))) (form w))
               w).
Proof.
  intros Hs' Hs. apply rated_set_slider; [exact Hs' |].
  apply rated_setValue, Hs.
Qed.

Lemma sliders_kept_by_update env s X :
  keeps (fun w => slider s (form w) = X) (MainWindow.update_altmans_summary env).
Proof. apply keeps_update_altmans_summary; intros; assumption. Qed.

Lemma sliders_kept_by_emit env s' s X :
  keeps (fun w => slider s (form w) = X) (MainWindow.emit_valueChanged env s').
Proof.
  unfold MainWindow.emit_valueChanged.
  apply keeps_bind; [apply keeps_get | intros w0].
  apply keeps_for_each. intros [x []]. apply sliders_kept_by_update.
Qed.

Lemma move_slider_cases env s v w :
  MainWindow.move_slider env s v w =
  if value (Ranged_setValue v (slider s (form w))) =? value (slider s (form w))
  then (Returned tt, w)
  else MainWindow.emit_valueChanged env s (dragged_window s v w).
Proof.
  unfold MainWindow.move_slider, bind at 1, get at 1.
  destruct (_ =? _); reflexivity.
Qed.

Lemma zero_filtered_sum_rated w :
  all_rated w ->
  zero_filtered_sum (form w) =
  value (altmans_sleep (form w)) + value (altmans_speech (form w)) +
  value (altmans_activity (form w)) + value (altmans_cheer (form w)) +
  value (altmans_confidence (form w)).
Proof.
  intros Hr.
  pose proof (Hr Sleep) as (_ & _ & H1). pose proof (Hr Speech) as (_ & _ & H2).
  pose proof (Hr Activity) as (_ & _ & H3). pose proof (Hr Cheer) as (_ & _ & H4).
  pose proof (Hr Confidence) as (_ & _ & H5). simpl in *.
  unfold zero_filtered_sum, counted.
  destruct (Z.ltb_spec 0 (value (altmans_sleep (form w)))),
    (Z.ltb_spec 0 (value (altmans_speech (form w)))),
    (Z.ltb_spec 0 (value (altmans_activity (form w)))),
    (Z.ltb_spec 0 (value (altmans_cheer (form w)))),
    (Z.ltb_spec 0 (value (altmans_confidence (form w)))); lia.
Qed.

(** C2. In a window the constructor has returned, [valueChanged] of each
    slider is connected to [update_altmans_summary], and after any event
    that changes the value of one of the five sliders the handling
    returns with that slider at the value it was dragged to (bounded to
    [0,4]), the other sliders as they were, and the summary field at the
    sum of the values greater than zero that the five sliders now hold,
    which is their plain sum: the change runs the recomputation there
    and then. *)
Theorem summary_follows_slider_change env w0 w s v :
  summary_calls_work env ->
  summary_fits w0 ->
  MainWindow.reachable env w0 w ->
  let r := MainWindow.handle env (MainWindow.SliderMoved s v) w in
  value (slider s (form (after r))) <> value (slider s (form w)) ->
  In (s, bound_update_altmans_summary) (valueChanged (wiring w)) /\
  outcome r = Returned tt /\
  value (slider s (form (after r))) = Z.max 0 (Z.min 4 v) /\
  (forall s', s' <> s -> slider s' (form (after r)) = slider s' (form w)) /\
  value (altmans_summary (form (after r))) = zero_filtered_sum (form (after r)) /\
  value (altmans_summary (form (after r))) =
    value (altmans_sleep (form (after r))) +
    value (altmans_speech (form (after r))) +
    value (altmans_activity (form (after r))) +
    value (altmans_cheer (form (after r))) +
    value (altmans_confidence (form (after r))).
Proof.
  intros Hworks Hfit0 Hreach r Hchanged.
  pose proof (reachable_all_rated env w0 w Hreach) as Hr.
  pose proof (reachable_wired env w0 w s Hreach) as Hw.
  pose proof (reachable_summary_fits env w0 w Hfit0 Hreach) as Hf.
  assert (Hr' : all_rated (after r))
    by (apply (reachable_all_rated env w0); apply MainWindow.reach_event, Hreach).
  assert (Er : r = MainWindow.emit_valueChanged env s (dragged_window s v w)).
  { subst r. change (MainWindow.handle env (MainWindow.SliderMoved s v) w)
      with (MainWindow.move_slider env s v w) in *.
    rewrite move_slider_cases in *.
    destruct (value (Ranged_setValue v (slider s (form w))) =?
              value (slider s (form w))); [| reflexivity].
    exfalso. apply Hchanged. reflexivity. }
  clearbody r. subst r.
  assert (Hr1 : all_rated (dragged_window s v w)).
  { intros s'. apply (rated_move_slider_state s' s v w (Hr s') (Hr s)). }
  destruct (emit_valueChanged_shows_sum env Hworks s (dragged_window s v w)
              Hw Hr1 Hf) as (Ho & _ & _ & Hs).
  assert (Hkept : forall s',
            slider s' (form (after (MainWindow.emit_valueChanged env s
                                      (dragged_window s v w)))) =
            slider s' (form (dragged_window s v w)))
    by (intros s'; apply (sliders_kept_by_emit env s s' _ _ eq_refl)).
  assert (Hplain :
    value (altmans_summary
             (form (after (MainWindow.emit_valueChanged env s
                             (dragged_window s v w))))) =
    value (altmans_sleep
             (form (after (MainWindow.emit_valueChanged env s
                             (dragged_window s v w))))) +
    value (altmans_speech
             (form (after (MainWindow.emit_valueChanged env s
                             (dragged_window s v w))))) +
    value (altmans_activity
             (form (after (MainWindow.emit_valueChanged env s
                             (dragged_window s v w))))) +
    value (altmans_cheer
             (form (after (MainWindow.emit_valueChanged env s
                             (dragged_window s v w))))) +
    value (altmans_confidence
             (form (after (MainWindow.emit_valueChanged env s
                             (dragged_window s v w)))))).
  { unfold synced in Hs. rewrite Hs. apply positive_sum_sliders.
    intros s'. apply (Hr' s'). }
  split; [exact Hw |]. split; [exact Ho |].
  split.
  { rewrite Hkept. unfold dragged_window. cbn [form with_form].
    rewrite slider_set_slider.
    destruct (decide (s = s)); [| contradiction].
    destruct (Hr s) as (Hlo & Hhi & _). cbn [value Ranged_setValue].
    rewrite Hlo, Hhi. reflexivity. }
  split.
  { intros s' Hne. rewrite Hkept. unfold dragged_window. cbn [form with_form].
    rewrite slider_set_slider.
    destruct (decide (s' = s)); [contradiction | reflexivity]. }
  split; [| exact Hplain].
  rewrite (zero_filtered_sum_rated _ Hr'). exact Hplain.
Qed.

Lemma summary_follows_slider_change_witness :
  let w := after (MainWindow.handle quiet (MainWindow.SliderMoved Speech 3)
                    (after (MainWindow.__init__ quiet setupUi))) in
  let r := MainWindow.handle quiet (MainWindow.SliderMoved Cheer 9) w in
  value (altmans_summary (form w)) = 3 /\
  value (slider Cheer (form (after r))) = 4 /\
  value (altmans_summary (form (after r))) = 7.
Proof.
  intros w r.
  assert (Hreach : MainWindow.reachable quiet setupUi w).
  { apply MainWindow.reach_event. apply MainWindow.reach_init.
    vm_compute. reflexivity. }
  assert (Hfit : summary_fits setupUi) by (split; vm_compute; discriminate).
  assert (Hch : value (slider Cheer (form (after r))) <>
                value (slider Cheer (form w)))
    by (vm_compute; discriminate).
  destruct (summary_follows_slider_change quiet setupUi w Cheer 9
              quiet_summary_calls_work Hfit Hreach Hch)
    as (_ & _ & Hv & _ & _ & Hsum).
  split; [vm_compute; reflexivity |].
  subst r. rewrite Hv, Hsum.
  split; [reflexivity | vm_compute; reflexivity].
Defined.

(** ** Saving the state *)

Lemma save_state_run env w :
  outcome (MainWindow.save_state env w) = Returned tt /\
  history (after (MainWindow.save_state env w)) =
    history w ++ geometry_calls env w ++ windowState_calls env w.
Proof.
  unfold MainWindow.save_state, geometry_calls, windowState_calls,
    MainWindow.saveGeometry, MainWindow.saveState,
    MainWindow.settings_setValue, MainWindow.logger_error,
    try_except, bind, MainWindow.call, get, ret, modify, outcome, after.
  simpl.
  destruct (faults env SaveGeometry); simpl;
    [| destruct (faults env (SettingsSetValue "geometry" _)); simpl];
    (destruct (faults env SaveState); simpl;
     [| destruct (faults env (SettingsSetValue "windowState" _)); simpl]);
    (split; [reflexivity | rewrite <- ?app_assoc; reflexivity]).
Qed.

Lemma closeEvent_run env w :
  outcome (MainWindow.closeEvent env w) = Returned tt /\
  history (after (MainWindow.closeEvent env w)) =
    history w ++ geometry_calls env w ++ windowState_calls env w.
Proof.
  destruct (save_state_run env w) as [Ho Hh].
  unfold MainWindow.closeEvent, try_except, outcome, after in *.
  destruct (MainWindow.save_state env w) as [[[]|e] w1]; simpl in *.
  - split; [reflexivity | exact Hh].
  - discriminate Ho.
Qed.

Lemma count_geometry_calls env w :
  count is_saveGeometry (geometry_calls env w) = 1%nat /\
  count is_saveState (geometry_calls env w) = 0%nat /\
  count (is_write "geometry") (geometry_calls env w) =
    match faults env SaveGeometry with Some _ => 0%nat | None => 1%nat end /\
  count (is_write "windowState") (geometry_calls env w) = 0%nat /\
  count (is_write "lastPageIndex") (geometry_calls env w) = 0%nat.
Proof.
  unfold geometry_calls.
  destruct (faults env SaveGeometry);
    [| destruct (faults env (SettingsSetValue "geometry" _))];
    repeat split; reflexivity.
Qed.

Lemma count_windowState_calls env w :
  count is_saveGeometry (windowState_calls env w) = 0%nat /\
  count is_saveState (windowState_calls env w) = 1%nat /\
  count (is_write "geometry") (windowState_calls env w) = 0%nat /\
  count (is_write "windowState") (windowState_calls env w) =
    match faults env SaveState with Some _ => 0%nat | None => 1%nat end /\
  count (is_write "lastPageIndex") (windowState_calls env w) = 0%nat.
Proof.
  unfold windowState_calls.
  destruct (faults env SaveState);
    [| destruct (faults env (SettingsSetValue "windowState" _))];
    repeat split; reflexivity.
Qed.

Lemma count_saving_calls env w :
  let d := geometry_calls env w ++ windowState_calls env w in
  count is_saveGeometry d = 1%nat /\
  count is_saveState d = 1%nat /\
  count (is_write "geometry") d =
    match faults env SaveGeometry with Some _ => 0%nat | None => 1%nat end /\
  count (is_write "windowState") d =
    match faults env SaveState with Some _ => 0%nat | None => 1%nat end /\
  count (is_write "lastPageIndex") d = 0%nat.
Proof.
  destruct (count_geometry_calls env w) as (G1 & G2 & G3 & G4 & G5).
  destruct (count_windowState_calls env w) as (S1 & S2 & S3 & S4 & S5).
  simpl. rewrite !count_app, G1, G2, G3, G4, G5, S1, S2, S3, S4, S5.
  repeat split; try reflexivity; destruct (faults env SaveGeometry); reflexivity.
Qed.

(** C10. The two writes of [save_state] have a handler each: whatever
    raises, [save_state] returns, [saveGeometry()] and [saveState()] are
    each called exactly once, and each of the two settings writes is
    attempted exactly once unless it is the reading of its own value that
    raised; a failure on the side of the geometry does not keep the
    window state from being saved, nor the other way round. *)
Theorem save_state_handlers_independent env w :
  let d := calls_since w (after (MainWindow.save_state env w)) in
  outcome (MainWindow.save_state env w) = Returned tt /\
  count is_saveGeometry d = 1%nat /\
  count is_saveState d = 1%nat /\
  count (is_write "geometry") d =
    match faults env SaveGeometry with Some _ => 0%nat | None => 1%nat end /\
  count (is_write "windowState") d =
    match faults env SaveState with Some _ => 0%nat | None => 1%nat end.
Proof.
  destruct (save_state_run env w) as [Ho Hh].
  destruct (count_saving_calls env w) as (C1 & C2 & C3 & C4 & _).
  simpl. rewrite (calls_since_app _ _ _ Hh).
  repeat split; assumption.
Qed.

(** When the write of the geometry raises, the window state is written
    all the same. *)
Example window_state_saved_after_failed_geometry :
  let env := failing (is_write "geometry") "access denied" in
  let w := after (MainWindow.__init__ quiet setupUi) in
  let d := calls_since w (after (MainWindow.save_state env w)) in
  outcome (MainWindow.save_state env w) = Returned tt /\
  count (is_write "windowState") d = 1%nat /\
  settings (after (MainWindow.save_state env w)) !! "geometry" = None /\
  settings (after (MainWindow.save_state env w)) !! "windowState" =
    Some (VBytes []).
Proof. repeat split; vm_compute; reflexivity. Qed.

(** The page index is saved when the page changes. *)
Example page_index_saved_on_change :
  let w := after (MainWindow.__init__ quiet setupUi) in
  let w' := after (MainWindow.handle quiet
                     (MainWindow.ActionTriggered actionShowAltmanTable) w) in
  settings w !! "lastPageIndex" = None /\
  settings w' !! "lastPageIndex" = Some (VInt 1) /\
  stackedWidget (chrome w') = 1.
Proof. repeat split; vm_compute; reflexivity. Qed.

(** C3, as worded, fails: closing the window the constructor returned
    writes the geometry and the window state, and no page index. *)
Lemma close_does_not_write_page_index :
  ~ close_persists_geometry_and_page quiet
      (after (MainWindow.__init__ quiet setupUi)).
Proof. intros (_ & _ & H). vm_compute in H. discriminate H. Qed.

(** C3, amended. Closing the window returns and attempts to persist the
    geometry and the window state exactly once each, from any window,
    restored or not: one call of [saveGeometry()] and of [saveState()],
    and one write under each of the keys unless reading the value itself
    raised.  The page index is not written on close. *)
Theorem closeEvent_persists_geometry_and_state env w :
  let d := calls_since w (after (MainWindow.closeEvent env w)) in
  outcome (MainWindow.closeEvent env w) = Returned tt /\
  count is_saveGeometry d = 1%nat /\
  count is_saveState d = 1%nat /\
  count (is_write "geometry") d =
    match faults env SaveGeometry with Some _ => 0%nat | None => 1%nat end /\
  count (is_write "windowState") d =
    match faults env SaveState with Some _ => 0%nat | None => 1%nat end /\
  count (is_write "lastPageIndex") d = 0%nat.
Proof.
  destruct (closeEvent_run env w) as [Ho Hh].
  destruct (count_saving_calls env w) as (C1 & C2 & C3 & C4 & C5).
  simpl. rewrite (calls_since_app _ _ _ Hh).
  repeat split; assumption.
Qed.

(** ** Restoring the state *)

Lemma call_calm env o w :
  calm env -> MainWindow.call env o w = (Returned tt, MainWindow.record o w).
Proof. intros H. unfold MainWindow.call. rewrite H. reflexivity. Qed.

Lemma no_raise_on_page_changed env i : no_raise (MainWindow.on_page_changed env i).
Proof. apply no_raise_try. intros e. apply no_raise_logger_error. Qed.

Lemma no_raise_emit_currentChanged env i :
  no_raise (MainWindow.emit_currentChanged env i).
Proof.
  intros w. unfold MainWindow.emit_currentChanged, bind, get.
  apply no_raise_for_each. intros []. apply no_raise_on_page_changed.
Qed.

Section Running.

Variable env : Env.
Hypothesis quiet_env : calm env.

Lemma runs_ret {A} (P : Window -> Prop) (a : A) (Q : A -> Window -> Prop) :
  (forall w, P w -> Q a w) -> runs P (ret a) Q.
Proof. intros H w Hw. exists a, w. split; [reflexivity | apply H, Hw]. Qed.

Lemma runs_get (P : Window -> Prop) (Q : Window -> Window -> Prop) :
  (forall w, P w -> Q w w) -> runs P get Q.
Proof. intros H w Hw. exists w, w. split; [reflexivity | apply H, Hw]. Qed.

Lemma runs_modify (P : Window -> Prop) f (Q : unit -> Window -> Prop) :
  (forall w, P w -> Q tt (f w)) -> runs P (modify f) Q.
Proof. intros H w Hw. exists tt, (f w). split; [reflexivity | apply H, Hw]. Qed.

Lemma runs_call (P : Window -> Prop) o (Q : unit -> Window -> Prop) :
  (forall w, P w -> Q tt (MainWindow.record o w)) ->
  runs P (MainWindow.call env o) Q.
Proof.
  intros H w Hw. exists tt, (MainWindow.record o w).
  split; [apply call_calm, quiet_env | apply H, Hw].
Qed.

Lemma runs_bind {A B} (P : Window -> Prop) (R : A -> Window -> Prop)
    (Q : B -> Window -> Prop) (m : M A) (k : A -> M B) :
  runs P m R -> (forall a, runs (R a) (k a) Q) -> runs P (bind m k) Q.
Proof.
  intros Hm Hk w Hw. destruct (Hm w Hw) as (a & w1 & E1 & H1).
  destruct (Hk a w1 H1) as (b & w2 & E2 & H2).
  exists b, w2. split; [| exact H2].
  rewrite (after_bind m k w a w1 E1). exact E2.
Qed.

Lemma runs_try {A} (P : Window -> Prop) (body : M A) handler
    (Q : A -> Window -> Prop) :
  runs P body Q -> runs P (try_except body handler) Q.
Proof.
  intros Hm w Hw. destruct (Hm w Hw) as (a & w1 & E1 & H1).
  exists a, w1. split; [| exact H1]. unfold try_except. rewrite E1. reflexivity.
Qed.

Lemma runs_keeps (P : Window -> Prop) (m : M unit) :
  keeps P m -> no_raise m -> runs P m (fun _ => P).
Proof.
  intros Hk Hn w Hw. specialize (Hk w Hw). specialize (Hn w).
  unfold after, outcome in *. destruct (m w) as [[[]|e] w1]; simpl in *.
  - exists tt, w1. split; [reflexivity | exact Hk].
  - discriminate Hn.
Qed.

End Running.

Lemma as_found_refl w :
  settings w !! "geometry" = None -> settings w !! "windowState" = None ->
  as_found w w.
Proof.
  intros Hg Hs. repeat split; try assumption.
  exists []. symmetry. apply app_nil_r.
Qed.

Lemma as_found_record w0 w o :
  as_found w0 w -> as_found w0 (MainWindow.record o w).
Proof.
  intros (H1 & H2 & H3 & H4 & H5 & d & Hd). repeat split; try assumption.
  exists (d ++ [o]). simpl. rewrite Hd, app_assoc. reflexivity.
Qed.

Lemma as_found_page_saved w0 w i :
  as_found w0 w ->
  as_found w0 (with_settings (<["lastPageIndex" := VInt i]> (settings w)) w).
Proof.
  intros (H1 & H2 & H3 & H4 & H5 & Hd). repeat split; try assumption; simpl.
  - rewrite lookup_insert_ne; [exact H4 | discriminate].
  - rewrite lookup_insert_ne; [exact H5 | discriminate].
Qed.

Ltac as_found_leaf :=
  unfold first_page_shown in *;
  match goal with
  | H : as_found _ _ /\ _ |- _ => destruct H
  | _ => idtac
  end;
  first
    [ assumption
    | apply as_found_record; assumption
    | apply as_found_page_saved; assumption
    | split; first [ assumption
                   | apply as_found_record; assumption
                   | apply as_found_page_saved; assumption ] ].

Section Restoring.

Variable env : Env.
Hypothesis quiet_env : calm env.
Variable w0 : Window.

Lemma settings_value_runs (P : Window -> Prop) key dflt :
  (forall o w, P w -> P (MainWindow.record o w)) ->
  runs P (MainWindow.settings_value env key dflt)
    (fun v w => v = default dflt (settings w !! key) /\ P w).
Proof.
  intros Hr. unfold MainWindow.settings_value.
  apply (runs_bind P (fun _ => P)).
  - apply (runs_call env quiet_env). intros w Hw. apply Hr, Hw.
  - intros _. apply (runs_bind P (fun a w => a = w /\ P w)).
    + apply runs_get. intros w Hw. split; [reflexivity | exact Hw].
    + intros a. apply runs_ret. intros w [-> Hw]. split; [reflexivity | exact Hw].
Qed.

Lemma show_page_first :
  runs (as_found w0) (MainWindow.show_page env 0) (fun _ => first_page_shown w0).
Proof.
  unfold MainWindow.show_page. intros w Hw. unfold bind at 1, get at 1.
  destruct (Z.eqb_spec 0 (stackedWidget (chrome w))) as [E|E]; simpl.
  - exists tt, w. split; [reflexivity |]. split; [exact Hw | symmetry; exact E].
  - apply (runs_bind (as_found w0) (fun _ => first_page_shown w0)
             (fun _ => first_page_shown w0)); [| | exact Hw].
    + apply runs_modify. intros w1 H1. split; [exact H1 | reflexivity].
    + intros _. apply runs_keeps.
      * keeps_walk as_found_leaf.
      * apply no_raise_emit_currentChanged.
Qed.

Lemma app_operations_runs :
  runs (fun w => as_found w0 w /\ settings w !! "lastPageIndex" = None)
    (MainWindow.app_operations env) (fun _ => first_page_shown w0).
Proof.
  set (P := fun w => as_found w0 w /\ settings w !! "lastPageIndex" = None).
  unfold MainWindow.app_operations. apply runs_try.
  apply (runs_bind P (fun _ => P)).
  { unfold MainWindow.connect_currentChanged.
    apply (runs_bind P (fun _ => P)).
    - apply (runs_call env quiet_env). intros w [H1 H2].
      split; [apply as_found_record, H1 | exact H2].
    - intros _. apply runs_modify. intros w Hw. exact Hw. }
  intros _.
  apply (runs_bind P (fun i w => i = 0 /\ as_found w0 w)).
  { unfold MainWindow.settings_value_int.
    apply (runs_bind P (fun v w => v = VInt 0 /\ as_found w0 w)).
    - intros w Hw.
      destruct (settings_value_runs P "lastPageIndex" (VInt 0)) with (w := w)
        as (v & w1 & E & -> & H1 & H2); [| exact Hw |].
      + intros o w1 [H1 H2]. split; [apply as_found_record, H1 | exact H2].
      + exists (default (VInt 0) (settings w1 !! "lastPageIndex")), w1.
        split; [exact E |]. rewrite H2. split; [reflexivity | exact H1].
    - intros v. intros w [-> Hw]. exists 0, w. split; [reflexivity |].
      split; [reflexivity | exact Hw]. }
  intros i.
  apply (runs_bind _ (fun _ => first_page_shown w0)).
  { intros w [-> Hw]. revert w Hw.
    unfold MainWindow.stackedWidget_setCurrentIndex.
    apply (runs_bind (as_found w0) (fun _ => as_found w0)).
    - apply (runs_call env quiet_env). intros w Hw. apply as_found_record, Hw.
    - intros _. apply show_page_first. }
  intros _.
  apply (runs_bind (first_page_shown w0) (fun _ => first_page_shown w0)).
  { unfold MainWindow.QTime_currentTime.
    apply (runs_bind (first_page_shown w0) (fun _ => first_page_shown w0)).
    - apply (runs_call env quiet_env). intros w [H1 H2].
      split; [apply as_found_record, H1 | exact H2].
    - intros _. apply runs_ret. intros w Hw. exact Hw. }
  intros t.
  apply (runs_bind (first_page_shown w0) (fun _ => first_page_shown w0)).
  { unfold MainWindow.altman_time_setTime.
    apply (runs_bind (first_page_shown w0) (fun _ => first_page_shown w0)).
    - apply (runs_call env quiet_env). intros w [H1 H2].
      split; [apply as_found_record, H1 | exact H2].
    - intros _. apply runs_modify. intros w Hw. exact Hw. }
  intros _.
  apply (runs_bind (first_page_shown w0) (fun _ => first_page_shown w0)).
  { unfold MainWindow.QDate_currentDate.
    apply (runs_bind (first_page_shown w0) (fun _ => first_page_shown w0)).
    - apply (runs_call env quiet_env). intros w [H1 H2].
      split; [apply as_found_record, H1 | exact H2].
    - intros _. apply runs_ret. intros w Hw. exact Hw. }
  intros d.
  unfold MainWindow.altman_date_setDate.
  apply (runs_bind (first_page_shown w0) (fun _ => first_page_shown w0)).
  - apply (runs_call env quiet_env). intros w [H1 H2].
    split; [apply as_found_record, H1 | exact H2].
  - intros _. apply runs_modify. intros w Hw. exact Hw.
Qed.

End Restoring.

Lemma restore_state_run env w :
  calm env ->
  settings w !! "geometry" = None ->
  settings w !! "windowState" = None ->
  MainWindow.restore_state env w =
  (Returned tt,
   with_history
     (history w ++
      [SettingsValue "geometry"; RestoreGeometry (VBytes []);
       SettingsValue "windowState"; RestoreState (VBytes [])]) w).
Proof.
  intros Hc Hg Hs.
  unfold MainWindow.restore_state, try_except, bind,
    MainWindow.settings_value, MainWindow.restoreGeometry,
    MainWindow.restoreState, MainWindow.call, get, ret.
  repeat (rewrite ?Hc; simpl; rewrite ?Hg, ?Hs; simpl).
  unfold MainWindow.record, with_history. simpl.
  rewrite <- !app_assoc. reflexivity.
Qed.

Lemma no_raise_restore_on_startup env : no_raise (restore_on_startup env).
Proof.
  unfold restore_on_startup. apply no_raise_bind.
  - apply no_raise_try. intros e. apply no_raise_logger_error.
  - unfold MainWindow.restore_state. apply no_raise_bind;
      apply no_raise_try; intros e; apply no_raise_logger_error.
Qed.

(** C6. With nothing saved under the keys of the window, restoring on
    startup does not raise, whatever the collaborators do; when they work,
    the first page is shown, [restoreGeometry] and [restoreState] are each
    given the empty default, and the geometry and the window state stay as
    the form set them. *)
Theorem restore_without_saved_state env w :
  calm env ->
  nothing_saved w ->
  let w' := after (restore_on_startup env w) in
  (forall env', outcome (restore_on_startup env' w) = Returned tt) /\
  stackedWidget (chrome w') = 0 /\
  In (RestoreGeometry (VBytes [])) (calls_since w w') /\
  In (RestoreState (VBytes [])) (calls_since w w') /\
  geometry (chrome w') = geometry (chrome w) /\
  fixedSize (chrome w') = fixedSize (chrome w) /\
  windowState (chrome w') = windowState (chrome w).
Proof.
  intros Hc (Hp & Hg & Hs) w'.
  split; [intros env'; apply no_raise_restore_on_startup |].
  destruct (app_operations_runs env Hc w w) as (u & w1 & E1 & Hf & Hi).
  { split; [apply as_found_refl; assumption | exact Hp]. }
  destruct Hf as (F1 & F2 & F3 & F4 & F5 & d & Hd).
  assert (Ew' : w' =
            with_history
              (history w1 ++
               [SettingsValue "geometry"; RestoreGeometry (VBytes []);
                SettingsValue "windowState"; RestoreState (VBytes [])]) w1).
  { subst w'. unfold restore_on_startup.
    rewrite (after_bind _ _ w u w1 E1).
    rewrite (restore_state_run env w1 Hc F4 F5). reflexivity. }
  assert (Hcalls : calls_since w w' =
            d ++ [SettingsValue "geometry"; RestoreGeometry (VBytes []);
                  SettingsValue "windowState"; RestoreState (VBytes [])]).
  { apply calls_since_app. rewrite Ew'. simpl. rewrite Hd, app_assoc.
    reflexivity. }
  rewrite Hcalls, Ew'. simpl.
  repeat split; try assumption.
  - apply in_or_app. right. simpl. tauto.
  - apply in_or_app. right. simpl. tauto.
Qed.

Lemma restore_without_saved_state_witness :
  let w' := after (restore_on_startup quiet setupUi) in
  stackedWidget (chrome w') = 0 /\
  geometry (chrome w') = geometry (chrome setupUi).
Proof.
  assert (Hc : calm quiet) by (intros o; reflexivity).
  assert (Hn : nothing_saved setupUi) by (repeat split; reflexivity).
  destruct (restore_without_saved_state quiet setupUi Hc Hn)
    as (_ & H1 & _ & _ & H2 & _).
  split; [exact H1 | exact H2].
Defined.

(** ** Failures inside the wiring methods *)

(** The methods that wrap their body in [try] never raise. *)
Lemma handled_methods_never_raise env :
  no_raise (MainWindow.app_operations env) /\
  (forall i, no_raise (MainWindow.on_page_changed env i)) /\
  no_raise (MainWindow.stack_navigation env) /\
  no_raise (MainWindow.update_altmans_summary env) /\
  no_raise (MainWindow.save_state env) /\
  no_raise (MainWindow.restore_state env) /\
  no_raise (MainWindow.closeEvent env).
Proof.
  repeat split; try intros i;
    first
      [ apply no_raise_try; intros e; apply no_raise_logger_error
      | apply no_raise_bind;
        apply no_raise_try; intros e; apply no_raise_logger_error ].
Qed.

(** C4, at failing collaborators: [setup_models], [delete_group],
    [switch_page_view_setup] and the second half of [altman_table_commit]
    have no handler, so what raises inside them reaches the caller, and
    the constructor with it; [stack_navigation], which connects the same
    signal inside a [try], returns. *)
Theorem unhandled_wiring_failures_propagate :
  outcome (MainWindow.setup_models
             (failing is_create_and_set_model "unable to open database file")
             setupUi)
    = Raised "unable to open database file"%string /\
  outcome (MainWindow.__init__
             (failing is_create_and_set_model "unable to open database file")
             setupUi)
    = Raised "unable to open database file"%string /\
  outcome (MainWindow.delete_group
             (failing (is_connect (sig_triggered actionDelete)) "connect failed")
             setupUi)
    = Raised "connect failed"%string /\
  outcome (MainWindow.switch_page_view_setup
             (failing (is_connect (sig_triggered actionShowAltmanExam))
                      "connect failed")
             setupUi)
    = Raised "connect failed"%string /\
  outcome (MainWindow.altman_table_commit
             (failing (is_connect (sig_valueChanged Sleep)) "connect failed")
             setupUi)
    = Raised "connect failed"%string /\
  outcome (MainWindow.stack_navigation
             (failing (is_connect (sig_triggered actionShowAltmanExam))
                      "connect failed")
             setupUi)
    = Returned tt.
Proof. repeat split; vm_compute; reflexivity. Qed.

(** ** The commit *)

Lemma commit_slots_connect_other a slot w :
  a <> actionCommit ->
  commit_slots
    (with_wiring {| currentChanged := currentChanged (wiring w);
                    triggered := triggered (wiring w) ++ [(a, slot)];
                    valueChanged := valueChanged (wiring w) |} w)
  = commit_slots w.
Proof.
  intros Ha. unfold commit_slots. simpl. rewrite filter_app.
  rewrite filter_cons_False, filter_nil, app_nil_r; [reflexivity |].
  simpl. intros H. apply bool_decide_unpack in H. contradiction.
Qed.

Lemma commit_slots_connect_commit slot w :
  commit_slots
    (with_wiring {| currentChanged := currentChanged (wiring w);
                    triggered := triggered (wiring w) ++ [(actionCommit, slot)];
                    valueChanged := valueChanged (wiring w) |} w)
  = commit_slots w ++ [(actionCommit, slot)].
Proof.
  unfold commit_slots. simpl. rewrite filter_app. reflexivity.
Qed.

Ltac commit_leaf :=
  unfold commit_wired in *;
  first
    [ assumption
    | rewrite commit_slots_connect_other; [assumption | discriminate] ].

Section Commit.

Variable env : Env.
Hypothesis commit_connects :
  faults env (Connect (sig_triggered actionCommit)) = None.

Lemma commit_wired_handle l ev :
  keeps (commit_wired l) (MainWindow.handle env ev).
Proof. destruct ev; keeps_walk commit_leaf. Qed.

Lemma commit_wired_stack_navigation l :
  keeps (commit_wired l) (MainWindow.stack_navigation env).
Proof.
  unfold MainWindow.stack_navigation. apply keeps_try.
  - simpl. keeps_walk commit_leaf.
  - intros e. keeps_walk commit_leaf.
Qed.

Lemma altman_table_commit_wires_commit :
  hoare (commit_wired []) (MainWindow.altman_table_commit env)
    (commit_wired [(actionCommit, lambda_add_altmans_data)]).
Proof.
  unfold MainWindow.altman_table_commit.
  apply (hoare_bind _ (commit_wired [(actionCommit, lambda_add_altmans_data)])).
  - intros w a w' H E.
    unfold try_except, MainWindow.connect_triggered, bind, MainWindow.call,
      modify in E.
    rewrite commit_connects in E. simpl in E. injection E as _ E. subst w'.
    unfold commit_wired in *.
    etransitivity;
      [apply (commit_slots_connect_commit lambda_add_altmans_data
                (MainWindow.record (Connect (sig_triggered actionCommit)) w)) |].
    change (commit_slots w ++ [(actionCommit, lambda_add_altmans_data)] =
            [(actionCommit, lambda_add_altmans_data)]).
    rewrite H. reflexivity.
  - intros _. apply keeps_hoare. keeps_walk commit_leaf.
Qed.

Lemma commit_wired_init :
  hoare (commit_wired []) (MainWindow.__init__ env)
    (commit_wired [(actionCommit, lambda_add_altmans_data)]).
Proof.
  unfold MainWindow.__init__.
  do 10 (apply (hoare_bind _ (commit_wired []));
         [apply keeps_hoare; keeps_walk commit_leaf | intros _]).
  apply (hoare_bind _ (commit_wired []));
    [apply keeps_hoare, commit_wired_stack_navigation | intros _].
  apply (hoare_bind _ (commit_wired []));
    [apply keeps_hoare; keeps_walk commit_leaf | intros _].
  apply (hoare_bind _ (commit_wired []));
    [apply keeps_hoare; keeps_walk commit_leaf | intros _].
  apply (hoare_bind _ (commit_wired [(actionCommit, lambda_add_altmans_data)]));
    [apply altman_table_commit_wires_commit | intros _].
  apply keeps_hoare. keeps_walk commit_leaf.
Qed.

Lemma reachable_commit_wired w0 w :
  triggered (wiring w0) = [] ->
  MainWindow.reachable env w0 w ->
  commit_wired [(actionCommit, lambda_add_altmans_data)] w.
Proof.
  intros H0 H. induction H as [w E | w ev H IH].
  - apply (commit_wired_init w0 tt w); [| exact E].
    unfold commit_wired, commit_slots. rewrite H0. reflexivity.
  - apply (commit_wired_handle _ ev w IH).
Qed.

Lemma trigger_commit_run w :
  commit_wired [(actionCommit, lambda_add_altmans_data)] w ->
  after (MainWindow.handle env (MainWindow.ActionTriggered actionCommit) w) =
  MainWindow.record
    (AddAltmansData (form w) MainWindow.widget_names insert_into_altman_table) w.
Proof.
  intros H. simpl. unfold MainWindow.emit_triggered, bind at 1, get at 1.
  unfold commit_wired, commit_slots in H. rewrite H. simpl.
  unfold MainWindow.add_altmans_data, bind, get, MainWindow.call, after.
  destruct (faults env (AddAltmansData _ _ _)); reflexivity.
Qed.

End Commit.

(** C5, as worded, fails: the mapping handed to the insert operation does
    not map every name to itself. *)
Lemma commit_mapping_renames_model :
  ~ commit_maps_names_to_themselves quiet
      (after (MainWindow.__init__ quiet setupUi)).
Proof.
  intros (names & insert & E & H).
  vm_compute in E. injection E; clear E; intros; subst names.
  do 8 (apply List.Forall_inv_tail in H).
  apply List.Forall_inv in H. discriminate H.
Qed.

(** C5, amended. In a window the constructor has returned, triggering the
    commit action calls [add_altmans_data] exactly once, with the form as
    it stands at the trigger, with [insert_into_altman_table], and with
    the fixed mapping: the date, the time, the five sliders and the
    summary each under their own name, and ["model"] to
    ["altmans_model"]. *)
Theorem commit_hands_over_current_form env w0 w :
  faults env (Connect (sig_triggered actionCommit)) = None ->
  triggered (wiring w0) = [] ->
  MainWindow.reachable env w0 w ->
  let w' :=
    after (MainWindow.handle env (MainWindow.ActionTriggered actionCommit) w) in
  calls_since w w' =
    [AddAltmansData (form w) MainWindow.widget_names insert_into_altman_table] /\
  form w' = form w /\
  MainWindow.widget_names =
    [("altman_date", "altman_date"); ("altman_time", "altman_time");
     ("altmans_sleep", "altmans_sleep"); ("altmans_speech", "altmans_speech");
     ("altmans_activity", "altmans_activity");
     ("altmans_cheer", "altmans_cheer");
     ("altmans_confidence", "altmans_confidence");
     ("altmans_summary", "altmans_summary");
     ("model", "altmans_model")]%string.
Proof.
  intros Hc H0 Hr w'.
  pose proof (reachable_commit_wired env Hc w0 w H0 Hr) as Hw.
  subst w'. rewrite (trigger_commit_run env w Hw).
  split; [| split; reflexivity].
  apply calls_since_app. reflexivity.
Qed.

Lemma commit_hands_over_current_form_witness :
  let w := after (MainWindow.handle quiet (MainWindow.SliderMoved Sleep 3)
                    (after (MainWindow.__init__ quiet setupUi))) in
  let w' :=
    after (MainWindow.handle quiet (MainWindow.ActionTriggered actionCommit) w) in
  value (altmans_sleep (form w)) = 3 /\
  value (altmans_sleep (form (after (MainWindow.__init__ quiet setupUi)))) = 0 /\
  calls_since w w' =
    [AddAltmansData (form w) MainWindow.widget_names insert_into_altman_table].
Proof.
  split; [vm_compute; reflexivity |]. split; [vm_compute; reflexivity |].
  apply (commit_hands_over_current_form quiet setupUi).
  - reflexivity.
  - reflexivity.
  - apply MainWindow.reach_event. apply MainWindow.reach_init.
    vm_compute. reflexivity.
Defined.

(** ** Further properties of the summary *)

Lemma fold_left_add_from (l : list Z) (a : Z) :
  fold_left Z.add l a = a + fold_left Z.add l 0.
Proof.
  revert a. induction l as [|v l IH]; intros a; simpl.
  - lia.
  - rewrite (IH (a + v)), (IH (0 + v)). lia.
Qed.

Lemma positive_sum_clipped (l : list Z) : positive_sum l = clipped_sum l.
Proof.
  unfold positive_sum, MainWindow.py_sum.
  induction l as [|v l IH]; simpl; [reflexivity |].
  unfold positive at 1. destruct (Z.ltb_spec 0 v); simpl.
  - rewrite fold_left_add_from, IH. lia.
  - rewrite IH. lia.
Qed.

Lemma clipped_sum_nonneg (l : list Z) : 0 <= clipped_sum l.
Proof. induction l as [|v l IH]; simpl; lia. Qed.

Lemma positive_values_calls env (l : list SliderId) (w : Window) :
  (forall s, faults env (SliderValue s) = None) ->
  MainWindow.positive_values env l w =
  (Returned (List.filter positive (map (fun s => value (slider s (form w))) l)),
   with_history (history w ++ summary_reads (form w) l) w).
Proof.
  intros Hread. revert w. induction l as [|s l IH]; intros w; simpl.
  - rewrite app_nil_r. destruct w; reflexivity.
  - unfold bind at 1. unfold MainWindow.slider_value at 1.
    unfold bind at 1, MainWindow.call at 1. rewrite Hread. simpl.
    change (positive (value (slider s (form w))))
      with (0 <? value (slider s (form w))).
    destruct (0 <? value (slider s (form w))) eqn:E.
    + unfold bind at 1. unfold MainWindow.slider_value at 1.
      unfold bind at 1, MainWindow.call at 1. rewrite Hread. simpl.
      unfold bind at 1.
      rewrite (IH (MainWindow.record (SliderValue s)
                     (MainWindow.record (SliderValue s) w))).
      unfold ret. simpl. rewrite <- !app_assoc. reflexivity.
    + rewrite (IH (MainWindow.record (SliderValue s) w)).
      simpl. rewrite <- !app_assoc. reflexivity.
Qed.

Lemma update_altmans_summary_calls env (w : Window) :
  summary_calls_work env ->
  MainWindow.update_altmans_summary env w =
  (Returned tt,
   with_history
     (history w ++ summary_reads (form w) MainWindow.form_sliders ++
      [SummarySetValue (positive_sum (slider_values (form w)))])
     (with_form (summary_set (positive_sum (slider_values (form w))) (form w))
                w)).
Proof.
  intros [Hread Hwrite].
  unfold MainWindow.update_altmans_summary, try_except, bind.
  rewrite (positive_values_calls env _ w Hread).
  unfold MainWindow.altmans_summary_setValue, bind, MainWindow.call.
  rewrite Hwrite. simpl.
  unfold MainWindow.record. simpl. rewrite <- app_assoc. reflexivity.
Qed.

Lemma count_summary_reads f l :
  count is_summary_setValue (summary_reads f l) = 0%nat /\
  count is_persistence (summary_reads f l) = 0%nat.
Proof.
  induction l as [|s l [IH1 IH2]]; simpl; [split; reflexivity |].
  rewrite !count_app, IH1, IH2.
  destruct (positive (value (slider s f))); split; reflexivity.
Qed.

(** X1. Whatever the five sliders hold, also outside [0,4] as before
    [setRange], [update_altmans_summary] reads each slider once, and once
    more when its value is positive, and then makes one call of
    [setValue] on the summary field, with the sum in which every value
    that is not positive counts as zero; that sum is never negative, and
    the field shows it bounded to the field's own range. *)
Theorem summary_counts_positive_values_only env w :
  summary_calls_work env ->
  let n := positive_sum (slider_values (form w)) in
  let w' := after (MainWindow.update_altmans_summary env w) in
  n = clipped_sum (slider_values (form w)) /\
  0 <= n /\
  calls_since w w' =
    summary_reads (form w) MainWindow.form_sliders ++ [SummarySetValue n] /\
  count is_summary_setValue (calls_since w w') = 1%nat /\
  form w' = summary_set n (form w) /\
  summary_after env w =
    qBound (minimum (altmans_summary (form w))) n
           (maximum (altmans_summary (form w))).
Proof.
  intros Hw n w'. subst n w'. unfold summary_after.
  rewrite (update_altmans_summary_calls env w Hw). unfold after. cbn [snd].
  assert (Hc : calls_since w
            (with_history
               (history w ++ summary_reads (form w) MainWindow.form_sliders ++
                [SummarySetValue (positive_sum (slider_values (form w)))])
               (with_form
                  (summary_set (positive_sum (slider_values (form w))) (form w))
                  w)) =
          summary_reads (form w) MainWindow.form_sliders ++
          [SummarySetValue (positive_sum (slider_values (form w)))])
    by (apply calls_since_app; reflexivity).
  rewrite Hc.
  split; [apply positive_sum_clipped |].
  split; [rewrite positive_sum_clipped; apply clipped_sum_nonneg |].
  split; [reflexivity |].
  split; [| split; reflexivity].
  rewrite count_app.
  rewrite (proj1 (count_summary_reads (form w) MainWindow.form_sliders)).
  reflexivity.
Qed.

Lemma summary_counts_positive_values_only_witness :
  summary_after quiet wide_window = 7 /\
  MainWindow.py_sum (slider_values (form wide_window)) = 4.
Proof.
  destruct (summary_counts_positive_values_only quiet wide_window
              quiet_summary_calls_work) as (_ & _ & _ & _ & _ & E).
  rewrite E. split; vm_compute; reflexivity.
Defined.

Lemma positive_values_form env l :
  forall w, form (after (MainWindow.positive_values env l w)) = form w.
Proof.
  intros w.
  apply (keeps_positive_values env (fun w' => form w' = form w) l);
    [intros s w1 H; exact H | reflexivity].
Qed.

Lemma positive_values_returned env l w vs w1 :
  MainWindow.positive_values env l w = (Returned vs, w1) ->
  vs = List.filter positive (map (fun s => value (slider s (form w))) l).
Proof.
  revert w vs w1. induction l as [|s l IH]; intros w vs w1 E; simpl in *.
  - injection E as <- _. reflexivity.
  - apply bind_returned in E as (c & w2 & E1 & E).
    assert (Hc : c = value (slider s (form w)) /\ form w2 = form w).
    { unfold MainWindow.slider_value, bind, MainWindow.call, get, ret in E1.
      destruct (faults env (SliderValue s)); [discriminate E1 |].
      injection E1 as <- <-. split; reflexivity. }
    destruct Hc as [-> Hf2]. unfold positive at 1.
    destruct (0 <? value (slider s (form w))).
    + apply bind_returned in E as (v & w3 & E2 & E).
      assert (Hv : v = value (slider s (form w)) /\ form w3 = form w).
      { unfold MainWindow.slider_value, bind, MainWindow.call, get, ret in E2.
        destruct (faults env (SliderValue s)); [discriminate E2 |].
        injection E2 as <- <-. split; [rewrite <- Hf2 |]; simpl; congruence. }
      destruct Hv as [-> Hf3].
      apply bind_returned in E as (vs' & w4 & E3 & E).
      injection E as <- _. rewrite (IH _ _ _ E3), Hf3. reflexivity.
    + rewrite (IH _ _ _ E), Hf2. reflexivity.
Qed.

Lemma last_call_after w w' d o :
  history w' = history w ++ d ++ [o] -> last (calls_since w w') = Some o.
Proof.
  intros E. rewrite (calls_since_app w w' (d ++ [o]) E). apply last_snoc.
Qed.

(** X2. [update_altmans_summary] is all or nothing, whatever raises: it
    never raises itself, and it leaves the form either exactly as it was
    (a read or the write failed, and the failure was logged) or with the
    summary field given the complete sum; a partial sum is never
    written. *)
Theorem update_altmans_summary_all_or_nothing env w :
  let w' := after (MainWindow.update_altmans_summary env w) in
  outcome (MainWindow.update_altmans_summary env w) = Returned tt /\
  ((form w' = form w /\
    exists e, last (calls_since w w') = Some (LoggerError e)) \/
   (form w' = summary_set (positive_sum (slider_values (form w))) (form w) /\
    last (calls_since w w') =
      Some (SummarySetValue (positive_sum (slider_values (form w)))))).
Proof.
  intros w'. split; [apply no_raise_update_altmans_summary |].
  subst w'. unfold MainWindow.update_altmans_summary, try_except, bind.
  pose proof (positive_values_form env MainWindow.form_sliders w) as Hf.
  pose proof (positive_values_returned env MainWindow.form_sliders w) as Hv.
  assert (Hh : exists d,
             history (after (MainWindow.positive_values env
                               MainWindow.form_sliders w)) = history w ++ d).
  { apply (keeps_positive_values env
             (fun w1 => exists d, history w1 = history w ++ d)).
    - intros s w1 [d Hd]. exists (d ++ [SliderValue s]). simpl.
      rewrite Hd, app_assoc. reflexivity.
    - exists []. rewrite app_nil_r. reflexivity. }
  unfold after in Hf, Hh.
  destruct (MainWindow.positive_values env MainWindow.form_sliders w)
    as [[vs|e] w1]; simpl in Hf, Hh; destruct Hh as [d Hd].
  - rewrite (Hv vs w1 eq_refl).
    change (List.filter positive
              (map (fun s => value (slider s (form w))) MainWindow.form_sliders))
      with (List.filter positive (slider_values (form w))).
    fold (positive_sum (slider_values (form w))).
    unfold MainWindow.altmans_summary_setValue, bind, MainWindow.call.
    destruct (faults env (SummarySetValue _)) as [e|]; unfold after;
      cbn [snd fst].
    + left. split; [exact Hf |]. exists e.
      apply (last_call_after w _
               (d ++ [SummarySetValue (positive_sum (slider_values (form w)))])).
      simpl. rewrite Hd, <- !app_assoc. reflexivity.
    + right. split; [unfold summary_set; simpl; rewrite Hf; reflexivity |].
      apply (last_call_after w _ d).
      simpl. rewrite Hd, <- !app_assoc. reflexivity.
  - unfold after. cbn [snd fst]. left. split; [exact Hf |]. exists e.
    apply (last_call_after w _ d).
    simpl. rewrite Hd, <- !app_assoc. reflexivity.
Qed.

(** ** Saving and restoring the frame *)

Lemma save_state_calm env w :
  calm env ->
  MainWindow.save_state env w =
  (Returned tt,
   with_history
     (history w ++
      [SaveGeometry;
       SettingsSetValue "geometry"
         (VBytes (encode_geometry env (geometry (chrome w))));
       SaveState;
       SettingsSetValue "windowState" (VBytes (windowState (chrome w)))])
     (with_settings
        (<["windowState" := VBytes (windowState (chrome w))]>
           (<["geometry" :=
                VBytes (encode_geometry env (geometry (chrome w)))]>
              (settings w)))
        w)).
Proof.
  intros Hc.
  unfold MainWindow.save_state, try_except, bind, MainWindow.saveGeometry,
    MainWindow.saveState, MainWindow.settings_setValue, MainWindow.call,
    get, ret, modify.
  repeat (progress (unfold bind, MainWindow.call; rewrite ?Hc; simpl)).
  unfold MainWindow.record, with_history, with_settings. simpl.
  rewrite <- !app_assoc. reflexivity.
Qed.

(** X3. When its calls work, [save_state] leaves under ["geometry"] the
    blob of the current geometry and under ["windowState"] the current
    window state, keeps every other key of the settings store (the saved
    page index among them) and changes nothing of the window itself. *)
Theorem save_state_stores_the_frame env w :
  calm env ->
  let w' := after (MainWindow.save_state env w) in
  settings w' !! "geometry" =
    Some (VBytes (encode_geometry env (geometry (chrome w)))) /\
  settings w' !! "windowState" = Some (VBytes (windowState (chrome w))) /\
  (forall key, key <> "geometry"%string -> key <> "windowState"%string ->
     settings w' !! key = settings w !! key) /\
  form w' = form w /\ chrome w' = chrome w /\ wiring w' = wiring w /\
  altmans_model w' = altmans_model w.
Proof.
  intros Hc w'. subst w'. rewrite (save_state_calm env w Hc).
  unfold after. cbn [snd]. simpl.
  split; [| split; [| split; [| repeat split]]].
  - rewrite lookup_insert_ne; [apply lookup_insert_eq | discriminate].
  - apply lookup_insert_eq.
  - intros key Hg Hs.
    rewrite lookup_insert_ne; [| congruence].
    rewrite lookup_insert_ne; [reflexivity | congruence].
Qed.

Lemma save_state_stores_the_frame_witness :
  let w' := after (MainWindow.save_state archive arranged) in
  settings w' !! "geometry" =
    Some (VBytes (frame_bytes (geometry (chrome arranged)))) /\
  settings w' !! "windowState" = Some (VBytes [Byte.x00; Byte.x2a; Byte.xff]).
Proof.
  assert (Hc : calm archive) by (intros o; reflexivity).
  destruct (save_state_stores_the_frame archive arranged Hc) as (H1 & H2 & _).
  split; [exact H1 | exact H2].
Defined.




Lemma only_frame_restored_refl w : only_frame_restored w w.
Proof.
  repeat split. exists []. split; [symmetry; apply app_nil_r | reflexivity].
Qed.

Lemma only_frame_restored_record w0 w o :
  is_any_write o = false ->
  only_frame_restored w0 w -> only_frame_restored w0 (MainWindow.record o w).
Proof.
  intros Ho (H1 & H2 & H3 & H4 & H5 & H6 & d & Hd & Hc).
  repeat split; try assumption.
  exists (d ++ [o]). split.
  - simpl. rewrite Hd, app_assoc. reflexivity.
  - rewrite count_app, Hc. unfold count. simpl. rewrite Ho. reflexivity.
Qed.

Lemma read_once_record first w0 w o :
  (forall key, is_read key o = false) ->
  read_once first w0 w -> read_once first w0 (MainWindow.record o w).
Proof.
  intros Ho (d & Hd & Hc). exists (d ++ [o]). split.
  - simpl. rewrite Hd, <- app_assoc. reflexivity.
  - intros key. rewrite count_app, Hc. unfold count. simpl.
    rewrite Ho. reflexivity.
Qed.

Ltac restore_leaf :=
  first
    [ assumption
    | apply only_frame_restored_record; [reflexivity | assumption]
    | apply read_once_record; [intros ?; reflexivity | assumption] ].

Lemma restore_state_only_frame env w :
  only_frame_restored w (after (MainWindow.restore_state env w)).
Proof.
  assert (H : keeps (only_frame_restored w) (MainWindow.restore_state env))
    by keeps_walk restore_leaf.
  apply H, only_frame_restored_refl.
Qed.

(** A [try] that starts by reading a setting reads it once. *)
Lemma try_reading_once env key dflt (rest : QVariant -> M unit) msg w :
  (forall v, keeps (read_once (SettingsValue key) w) (rest v)) ->
  read_once (SettingsValue key) w
    (after (try_except
              (v <- MainWindow.settings_value env key dflt ;; rest v)
              (fun e => MainWindow.logger_error (msg +:+ e)) w)).
Proof.
  intros Hrest.
  assert (H0 : read_once (SettingsValue key) w
                 (MainWindow.record (SettingsValue key) w)).
  { exists []. split; [reflexivity | intros k; reflexivity]. }
  unfold try_except, MainWindow.settings_value, get, ret.
  unfold bind at 1 2 3, MainWindow.call.
  destruct (faults env (SettingsValue key)) as [e|]; cbn [fst snd].
  - unfold after. cbn [snd].
    apply (read_once_record _ _ _ (LoggerError (msg +:+ e)));
      [intros k; reflexivity | exact H0].
  - assert (Hk : keeps (read_once (SettingsValue key) w)
              (try_except
                 (rest (default dflt
                          (settings (MainWindow.record (SettingsValue key) w)
                             !! key)))
                 (fun e => MainWindow.logger_error (msg +:+ e)))).
    { apply keeps_try; [apply Hrest | intros e].
      keeps_walk restore_leaf. }
    apply (Hk _ H0).
Qed.

Lemma count_read_cons key o d :
  count (is_read key) (o :: d) =
  ((if is_read key o then 1 else 0) + count (is_read key) d)%nat.
Proof. unfold count. simpl. destruct (is_read key o); reflexivity. Qed.

(** X5. Whatever is stored and whatever raises, [restore_state] returns,
    reads each of its two keys exactly once, the window state also when
    the geometry failed, and writes no setting; of the window it changes
    the geometry and the window state only. *)
Theorem restore_state_reads_and_never_writes env w :
  let w' := after (MainWindow.restore_state env w) in
  outcome (MainWindow.restore_state env w) = Returned tt /\
  count (is_read "geometry") (calls_since w w') = 1%nat /\
  count (is_read "windowState") (calls_since w w') = 1%nat /\
  count is_any_write (calls_since w w') = 0%nat /\
  settings w' = settings w /\
  form w' = form w /\
  wiring w' = wiring w /\
  stackedWidget (chrome w') = stackedWidget (chrome w) /\
  fixedSize (chrome w') = fixedSize (chrome w).
Proof.
  intros w'.
  split; [apply (proj1 (proj2 (proj2 (proj2 (proj2 (proj2
            (handled_methods_never_raise env))))))) |].
  destruct (restore_state_only_frame env w)
    as (H1 & H2 & H3 & H4 & H5 & H6 & d & Hd & Hc).
  fold w' in H1, H2, H3, H5, H6, Hd.
  rewrite (calls_since_app w w' d Hd).
  assert (Hreads : count (is_read "geometry") d = 1%nat /\
                   count (is_read "windowState") d = 1%nat).
  { subst w'. unfold MainWindow.restore_state in Hd.
    unfold after in Hd. unfold bind at 1 in Hd.
    pose proof (try_reading_once env "geometry" (VBytes [])
                  (fun v => MainWindow.restoreGeometry env v ;; ret tt)
                  "Error restoring the minds module : stress state " w) as G.
    assert (Hn : outcome
              (try_except
                 (v <- MainWindow.settings_value env "geometry" (VBytes []) ;;
                  MainWindow.restoreGeometry env v ;; ret tt)
                 (fun e => MainWindow.logger_error
                    ("Error restoring the minds module : stress state " +:+ e))
                 w) = Returned tt)
      by (apply no_raise_try; intros e; apply no_raise_logger_error).
    unfold outcome, after in G, Hn.
    destruct (try_except
                (v <- MainWindow.settings_value env "geometry" (VBytes []) ;;
                 MainWindow.restoreGeometry env v ;; ret tt) _ w)
      as [[[]|e] w1]; cbn [fst snd] in *; [| discriminate Hn].
    destruct G as (d1 & Hd1 & Hc1); [intros v; keeps_walk restore_leaf |].
    pose proof (try_reading_once env "windowState" (VBytes [])
                  (fun v => MainWindow.restoreState env v ;; ret tt)
                  "Error restoring WINDOW STATE " w1) as S.
    unfold after in S.
    destruct S as (d2 & Hd2 & Hc2); [intros v; keeps_walk restore_leaf |].
    cbn beta iota in Hd.
    rewrite Hd2, Hd1, <- app_assoc in Hd. apply app_inv_head in Hd. subst d.
    simpl. rewrite !count_read_cons, !count_app, !count_read_cons, !Hc1, !Hc2.
    split; reflexivity. }
  destruct Hreads as [R1 R2].
  repeat split; assumption.
Qed.

(** ** Further invariants of the window *)

Section Disabled.

Variable env : Env.

Lemma altman_table_commit_disables :
  hoare (fun _ => True) (MainWindow.altman_table_commit env)
    (fun w => altmans_summary_enabled (form w) = false).
Proof.
  unfold MainWindow.altman_table_commit.
  eapply hoare_bind; [apply hoare_trivial | intros _].
  apply (hoare_bind _ (fun w => altmans_summary_enabled (form w) = false)).
  - intros w a w' _ E. unfold MainWindow.altmans_summary_setEnabled in E.
    apply bind_returned in E as (u & w1 & _ & E).
    unfold modify in E. injection E as E. subst w'. reflexivity.
  - intros _. apply keeps_hoare. keeps_walk assumption.
Qed.

Lemma init_disables :
  hoare (fun _ => True) (MainWindow.__init__ env)
    (fun w => altmans_summary_enabled (form w) = false).
Proof.
  unfold MainWindow.__init__.
  do 13 (eapply hoare_bind; [apply hoare_trivial | intros _]).
  eapply hoare_bind; [apply altman_table_commit_disables | intros _].
  apply keeps_hoare. keeps_walk assumption.
Qed.

Lemma handle_keeps_disabled ev :
  keeps (fun w => altmans_summary_enabled (form w) = false)
    (MainWindow.handle env ev).
Proof. destruct ev; keeps_walk assumption. Qed.

End Disabled.

(** X6. Once the constructor has returned, the summary field is disabled,
    and no event the window handles enables it again: the user cannot
    edit the total. *)
Theorem summary_field_stays_disabled env w0 w :
  MainWindow.reachable env w0 w ->
  altmans_summary_enabled (form w) = false.
Proof.
  intros H. induction H as [w E | w ev H IH].
  - apply (init_disables env w0 tt w I E).
  - apply (handle_keeps_disabled env ev w IH).
Qed.

Lemma summary_field_stays_disabled_witness :
  altmans_summary_enabled (form setupUi) = true /\
  altmans_summary_enabled
    (form (after (MainWindow.handle quiet (MainWindow.SliderMoved Sleep 2)
                    (after (MainWindow.__init__ quiet setupUi))))) = false.
Proof.
  split; [reflexivity |].
  apply (summary_field_stays_disabled quiet setupUi).
  apply MainWindow.reach_event. apply MainWindow.reach_init.
  vm_compute. reflexivity.
Defined.

(** ** Moving a slider *)

Lemma slider_only_refl s w : slider_only s w w.
Proof.
  repeat split. exists []. split; [symmetry; apply app_nil_r | reflexivity].
Qed.

Lemma slider_only_record s w0 w o :
  is_persistence o = false ->
  slider_only s w0 w -> slider_only s w0 (MainWindow.record o w).
Proof.
  intros Ho (H1 & H2 & H3 & H4 & H5 & H6 & H7 & H8 & d & Hd & Hc).
  repeat split; try assumption.
  exists (d ++ [o]). split.
  - simpl. rewrite Hd, app_assoc. reflexivity.
  - rewrite count_app, Hc. unfold count. simpl. rewrite Ho. reflexivity.
Qed.

Lemma slider_only_set_slider s w0 w r :
  slider_only s w0 w ->
  slider_only s w0 (with_form (set_slider s r (form w)) w).
Proof.
  intros (H1 & H2 & H3 & H4 & H5 & H6 & H7 & H8 & Hd).
  repeat split; try assumption.
  intros s' Hne. simpl. rewrite slider_set_slider.
  destruct (decide (s' = s)); [contradiction | apply H5, Hne].
Qed.

Lemma slider_only_set_summary s w0 w r :
  slider_only s w0 w ->
  slider_only s w0 (with_form (set_summary r (form w)) w).
Proof.
  intros (H1 & H2 & H3 & H4 & H5 & H6 & H7 & H8 & Hd).
  repeat split; assumption.
Qed.

Ltac slider_leaf :=
  first
    [ assumption
    | apply slider_only_record; [reflexivity | assumption]
    | apply slider_only_set_slider; assumption
    | apply slider_only_set_summary; assumption ].

Lemma no_raise_emit_valueChanged env s :
  no_raise (MainWindow.emit_valueChanged env s).
Proof.
  intros w. unfold MainWindow.emit_valueChanged, bind, get.
  apply no_raise_for_each. intros [x []].
  apply no_raise_update_altmans_summary.
Qed.

Lemma no_raise_move_slider env s v : no_raise (MainWindow.move_slider env s v).
Proof.
  intros w. unfold MainWindow.move_slider, bind, get.
  destruct (_ =? _); [reflexivity |].
  unfold modify. apply no_raise_emit_valueChanged.
Qed.

(** X7. Moving a slider persists nothing, whatever raises: the handling
    returns, the settings store is as before, no call goes to the
    settings store or to a database helper, and the other sliders, the
    date, the time, the frame, the wiring and the model are unchanged. *)
Theorem moving_a_slider_persists_nothing env w s v :
  let r := MainWindow.handle env (MainWindow.SliderMoved s v) w in
  outcome r = Returned tt /\
  settings (after r) = settings w /\
  count is_persistence (calls_since w (after r)) = 0%nat /\
  (forall s', s' <> s -> slider s' (form (after r)) = slider s' (form w)) /\
  altman_date (form (after r)) = altman_date (form w) /\
  altman_time (form (after r)) = altman_time (form w) /\
  chrome (after r) = chrome w /\
  wiring (after r) = wiring w /\
  altmans_model (after r) = altmans_model w.
Proof.
  intros r. subst r. simpl.
  split; [apply no_raise_move_slider |].
  assert (H : slider_only s w (after (MainWindow.move_slider env s v w))).
  { assert (Hk : keeps (slider_only s w) (MainWindow.move_slider env s v))
      by keeps_walk slider_leaf.
    apply Hk, slider_only_refl. }
  destruct H as (H1 & H2 & H3 & H4 & H5 & H6 & H7 & H8 & d & Hd & Hc).
  rewrite (calls_since_app _ _ d Hd).
  repeat split; assumption.
Qed.

(** ** What can make the constructor raise *)

Section Constructing.

Variable env : Env.
Hypothesis works : unhandled_calls_work env.

Lemma returns_setup_models : no_raise (MainWindow.setup_models env).
Proof.
  destruct works as (_ & Hm & _). intros w.
  unfold MainWindow.setup_models, MainWindow.create_and_set_model, bind,
    MainWindow.call.
  rewrite Hm. reflexivity.
Qed.

Lemma returns_connect_triggered a slot :
  a <> actionCommit ->
  no_raise (MainWindow.connect_triggered env a slot).
Proof.
  destruct works as (_ & _ & Ht & _). intros Ha w.
  unfold MainWindow.connect_triggered, bind, MainWindow.call.
  rewrite (Ht a Ha). reflexivity.
Qed.

Lemma returns_connect_valueChanged s slot :
  no_raise (MainWindow.connect_valueChanged env s slot).
Proof.
  destruct works as (_ & _ & _ & Hv & _). intros w.
  unfold MainWindow.connect_valueChanged, bind, MainWindow.call.
  rewrite Hv. reflexivity.
Qed.

Lemma returns_slider_setRange s :
  no_raise (MainWindow.slider_setRange env s 0 4).
Proof.
  destruct works as (_ & _ & _ & _ & _ & Hr). intros w.
  unfold MainWindow.slider_setRange. unfold bind at 1, MainWindow.call.
  rewrite Hr. unfold bind at 1, get. unfold bind at 1, modify.
  destruct (_ =? _); [reflexivity | apply no_raise_emit_valueChanged].
Qed.

Lemma returns_altman_table_commit :
  no_raise (MainWindow.altman_table_commit env).
Proof.
  unfold MainWindow.altman_table_commit.
  apply no_raise_bind;
    [apply no_raise_try; intros e; apply no_raise_logger_error |].
  apply no_raise_bind.
  { destruct works as (_ & _ & _ & _ & He & _). intros w.
    unfold MainWindow.altmans_summary_setEnabled, bind, MainWindow.call.
    rewrite He. reflexivity. }
  apply no_raise_bind;
    [apply no_raise_for_each; intros s; apply returns_slider_setRange |].
  repeat (apply no_raise_bind; [apply returns_connect_valueChanged |]).
  apply returns_connect_valueChanged.
Qed.

Lemma returns_call o : faults env o = None -> no_raise (MainWindow.call env o).
Proof. intros H w. unfold MainWindow.call. rewrite H. reflexivity. Qed.

Lemma returns_init : no_raise (MainWindow.__init__ env).
Proof.
  destruct (handled_methods_never_raise env)
    as (Happ & _ & Hnav & Hupd & _ & Hres & _).
  destruct works as ((B1 & B2 & B3 & B4 & B5 & B6 & B7) & _).
  unfold MainWindow.__init__.
  apply no_raise_bind; [apply returns_call, B1 |].
  apply no_raise_bind; [apply returns_call, B2 |].
  apply no_raise_bind; [apply returns_call, B3 |].
  apply no_raise_bind; [apply returns_call, B4 |].
  apply no_raise_bind; [apply returns_setup_models |].
  apply no_raise_bind; [apply returns_call, B5 |].
  apply no_raise_bind; [apply returns_call, B6 |].
  apply no_raise_bind; [apply returns_call, B7 |].
  apply no_raise_bind; [exact Happ |].
  apply no_raise_bind; [exact Hres |].
  apply no_raise_bind; [exact Hnav |].
  apply no_raise_bind; [apply returns_connect_triggered; discriminate |].
  apply no_raise_bind; [exact Hupd |].
  apply no_raise_bind; [apply returns_altman_table_commit |].
  unfold MainWindow.switch_page_view_setup.
  apply no_raise_bind; apply returns_connect_triggered; discriminate.
Qed.

End Constructing.

Lemma handled_only_spares_the_unhandled e :
  unhandled_calls_work (failing handled_only e).
Proof.
  repeat split; try reflexivity.
  intros [] Ha; [reflexivity | reflexivity | contradiction | reflexivity].
Qed.

(** X8. The constructor returns whenever the calls it makes outside a
    [try] work: those that build the window and its helpers (the base
    class, the form, the data manager, the settings, the window controller
    and the window flags), building the model, connecting the delete and
    page actions, disabling the summary field, setting the five ranges and
    connecting the five sliders.  Every other failure, of the settings
    store, of the restore, of the commit connection, of the slider reads,
    is logged and leaves a window. *)
Theorem constructor_returns_when_unhandled_calls_work env w :
  unhandled_calls_work env ->
  outcome (MainWindow.__init__ env w) = Returned tt /\
  MainWindow.reachable env w (after (MainWindow.__init__ env w)).
Proof.
  intros H. pose proof (returns_init env H w) as Ho. split; [exact Ho |].
  apply MainWindow.reach_init. unfold outcome, after in *.
  destruct (MainWindow.__init__ env w) as [o w1]. simpl in *.
  rewrite Ho. reflexivity.
Qed.

Lemma constructor_returns_when_unhandled_calls_work_witness :
  let env := failing handled_only "out of order" in
  outcome (MainWindow.__init__ env setupUi) = Returned tt /\
  count (fun o => match o with LoggerError _ => true | _ => false end)
        (history (after (MainWindow.__init__ env setupUi))) = 5%nat.
Proof.
  split.
  - apply (constructor_returns_when_unhandled_calls_work
             (failing handled_only "out of order") setupUi).
    apply handled_only_spares_the_unhandled.
  - vm_compute. reflexivity.
Defined.

(** ** The wiring, exactly *)

Lemma try_after_first {A} (m : M unit) (k : M A) handler w w1 :
  m w = (Returned tt, w1) ->
  try_except (m ;; k) handler w = try_except k handler w1.
Proof. unfold try_except, bind. intros ->. reflexivity. Qed.

Section ExactWiring.

Variable env : Env.
Hypothesis connecting : connects_work env.

Lemma connect_currentChanged_run slot w :
  MainWindow.connect_currentChanged env slot w =
  (Returned tt,
   with_wiring (add_page_slot slot (wiring w))
     (MainWindow.record (Connect sig_currentChanged) w)).
Proof.
  unfold MainWindow.connect_currentChanged, bind, MainWindow.call.
  rewrite connecting. reflexivity.
Qed.

Lemma connect_triggered_run a slot w :
  MainWindow.connect_triggered env a slot w =
  (Returned tt,
   with_wiring (add_action_slot a slot (wiring w))
     (MainWindow.record (Connect (sig_triggered a)) w)).
Proof.
  unfold MainWindow.connect_triggered, bind, MainWindow.call.
  rewrite connecting. reflexivity.
Qed.

Lemma connect_valueChanged_run s slot w :
  MainWindow.connect_valueChanged env s slot w =
  (Returned tt,
   with_wiring (add_value_slot s slot (wiring w))
     (MainWindow.record (Connect (sig_valueChanged s)) w)).
Proof.
  unfold MainWindow.connect_valueChanged, bind, MainWindow.call.
  rewrite connecting. reflexivity.
Qed.

Lemma connect_triggered_wiring a slot W :
  hoare (fun w => wiring w = W) (MainWindow.connect_triggered env a slot)
    (fun w => wiring w = add_action_slot a slot W).
Proof.
  intros w u w' HW E. rewrite connect_triggered_run in E.
  injection E as E. subst w'. simpl. rewrite HW. reflexivity.
Qed.

Lemma connect_valueChanged_wiring s slot W :
  hoare (fun w => wiring w = W) (MainWindow.connect_valueChanged env s slot)
    (fun w => wiring w = add_value_slot s slot W).
Proof.
  intros w u w' HW E. rewrite connect_valueChanged_run in E.
  injection E as E. subst w'. simpl. rewrite HW. reflexivity.
Qed.

Lemma app_operations_wiring W :
  hoare (fun w => wiring w = W) (MainWindow.app_operations env)
    (fun w => wiring w = add_page_slot bound_on_page_changed W).
Proof.
  intros w u w' HW E. apply returned_after in E. rewrite <- E. clear E.
  unfold MainWindow.app_operations.
  rewrite (try_after_first _ _ _ w _
             (connect_currentChanged_run bound_on_page_changed w)).
  match goal with
  | |- wiring (after (?m ?w1)) = _ =>
      assert (Hk : keeps
                (fun w2 => wiring w2 = add_page_slot bound_on_page_changed W) m)
        by keeps_walk assumption;
      apply (Hk w1)
  end.
  simpl. rewrite HW. reflexivity.
Qed.

Lemma stack_navigation_wiring W :
  hoare (fun w => wiring w = W) (MainWindow.stack_navigation env)
    (fun w => wiring w =
       add_action_slot actionShowAltmanTable (lambda_change_stack_page 1)
         (add_action_slot actionShowAltmanExam (lambda_change_stack_page 0) W)).
Proof.
  intros w u w' HW E. apply returned_after in E. rewrite <- E. clear E.
  unfold MainWindow.stack_navigation. simpl for_each.
  rewrite (try_after_first _ _ _ w _ (connect_triggered_run _ _ w)).
  rewrite (try_after_first _ _ _ _ _ (connect_triggered_run _ _ _)).
  unfold try_except, ret, after. simpl. rewrite HW. reflexivity.
Qed.

Lemma altman_table_commit_wiring W :
  hoare (fun w => wiring w = W) (MainWindow.altman_table_commit env)
    (fun w => wiring w =
       add_value_slot Confidence bound_update_altmans_summary
         (add_value_slot Cheer bound_update_altmans_summary
            (add_value_slot Activity bound_update_altmans_summary
               (add_value_slot Speech bound_update_altmans_summary
                  (add_value_slot Sleep bound_update_altmans_summary
                     (add_action_slot actionCommit lambda_add_altmans_data
                        W)))))).
Proof.
  unfold MainWindow.altman_table_commit.
  apply (hoare_bind _
           (fun w => wiring w =
              add_action_slot actionCommit lambda_add_altmans_data W)).
  { intros w u w' HW E. unfold try_except in E.
    rewrite connect_triggered_run in E. injection E as E. subst w'.
    simpl. rewrite HW. reflexivity. }
  intros _.
  eapply hoare_bind; [apply keeps_hoare; keeps_walk assumption | intros _].
  eapply hoare_bind; [apply keeps_hoare; keeps_walk assumption | intros _].
  eapply hoare_bind; [apply connect_valueChanged_wiring | intros _].
  eapply hoare_bind; [apply connect_valueChanged_wiring | intros _].
  eapply hoare_bind; [apply connect_valueChanged_wiring | intros _].
  eapply hoare_bind; [apply connect_valueChanged_wiring | intros _].
  apply connect_valueChanged_wiring.
Qed.

Lemma init_wiring :
  hoare (fun w => wiring w = no_wiring) (MainWindow.__init__ env)
    (fun w => wiring w = wired_up).
Proof.
  unfold MainWindow.__init__.
  do 8 (eapply hoare_bind; [apply keeps_hoare; keeps_walk assumption | intros _]).
  eapply hoare_bind; [apply app_operations_wiring | intros _].
  eapply hoare_bind; [apply keeps_hoare; keeps_walk assumption | intros _].
  eapply hoare_bind; [apply stack_navigation_wiring | intros _].
  eapply hoare_bind; [apply connect_triggered_wiring | intros _].
  eapply hoare_bind; [apply keeps_hoare; keeps_walk assumption | intros _].
  eapply hoare_bind; [apply altman_table_commit_wiring | intros _].
  unfold MainWindow.switch_page_view_setup.
  eapply hoare_bind; [apply connect_triggered_wiring | intros _].
  apply connect_triggered_wiring.
Qed.

Lemma handle_keeps_wiring W ev :
  keeps (fun w => wiring w = W) (MainWindow.handle env ev).
Proof. destruct ev; keeps_walk assumption. Qed.

Lemma reachable_wiring w0 w :
  wiring w0 = no_wiring -> MainWindow.reachable env w0 w -> wiring w = wired_up.
Proof.
  intros H0 H. induction H as [w E | w ev H IH].
  - apply (init_wiring w0 tt w H0 E).
  - apply (handle_keeps_wiring wired_up ev w IH).
Qed.

End ExactWiring.

(** X9. When no [connect] raises, the constructor makes every connection
    exactly once and no event adds or removes one: page changes go to
    [on_page_changed]; each page action to its [change_stack_page] lambda
    and then to its [switch] method; the delete and commit actions to
    their lambdas; each slider to [update_altmans_summary]. *)
Theorem every_connection_is_made_once env w0 w :
  connects_work env ->
  wiring w0 = no_wiring ->
  MainWindow.reachable env w0 w ->
  currentChanged (wiring w) = [bound_on_page_changed] /\
  triggered (wiring w) =
    [(actionShowAltmanExam, lambda_change_stack_page 0);
     (actionShowAltmanTable, lambda_change_stack_page 1);
     (actionDelete, lambda_delete_selected_rows);
     (actionCommit, lambda_add_altmans_data);
     (actionShowAltmanExam, bound_switchone);
     (actionShowAltmanTable, bound_switchtwo)] /\
  valueChanged (wiring w) =
    map (fun s => (s, bound_update_altmans_summary)) MainWindow.form_sliders.
Proof.
  intros Hc H0 H. rewrite (reachable_wiring env Hc w0 w H0 H).
  repeat split.
Qed.

Lemma every_connection_is_made_once_witness :
  let w := after (MainWindow.handle quiet (MainWindow.ActionTriggered actionCommit)
                    (after (MainWindow.__init__ quiet setupUi))) in
  currentChanged (wiring w) = [bound_on_page_changed] /\
  length (triggered (wiring w)) = 6%nat /\
  length (valueChanged (wiring w)) = 5%nat.
Proof.
  destruct (every_connection_is_made_once quiet setupUi
              (after (MainWindow.handle quiet
                        (MainWindow.ActionTriggered actionCommit)
                        (after (MainWindow.__init__ quiet setupUi)))))
    as (H1 & H2 & H3).
  - intros sig. reflexivity.
  - reflexivity.
  - apply MainWindow.reach_event. apply MainWindow.reach_init.
    vm_compute. reflexivity.
  - split; [exact H1 |]. split; [rewrite H2 | rewrite H3]; reflexivity.
Defined.

(** ** What the actions do *)

Section Actions.

Variable env : Env.
Hypothesis quiet_env : calm env.

Lemma show_page_action_run p w :
  wiring w = wired_up ->
  exists h',
    MainWindow.handle env (MainWindow.ActionTriggered (action_of p)) w =
    (Returned tt,
     {| form := form w;
        chrome :=
          {| stackedWidget := MainWindow.page_index p;
             geometry := {| frame_x := frame_x (geometry (chrome w));
                            frame_y := frame_y (geometry (chrome w));
                            frame_w := fst (size_of p);
                            frame_h := snd (size_of p) |};
             fixedSize := Some (size_of p);
             windowState := windowState (chrome w) |};
        wiring := wiring w;
        settings :=
          (if MainWindow.page_index p =? stackedWidget (chrome w)
           then settings w
           else <["lastPageIndex" := VInt (MainWindow.page_index p)]>
                  (settings w));
        altmans_model := altmans_model w;
        history := h' |}).
Proof.
  intros Hw. destruct w as [f c g st m h]. simpl in Hw. subst g.
  destruct c as [idx geo fx ws].
  destruct p; simpl;
    unfold MainWindow.emit_triggered, bind at 1, get at 1; simpl;
    unfold MainWindow.change_stack_page, MainWindow.switchone,
      MainWindow.switchtwo,
      MainWindow.stackedWidget_setCurrentWidget, MainWindow.show_page,
      MainWindow.resize, MainWindow.setFixedSize,
      MainWindow.emit_currentChanged, MainWindow.on_page_changed,
      MainWindow.settings_setValue, try_except, get, ret, modify;
    destruct idx as [|[q|q|]|q]; simpl;
    repeat (progress (unfold bind, MainWindow.call; rewrite ?quiet_env; simpl));
    eexists; reflexivity.
Qed.

End Actions.

Lemma calm_connects_work env : calm env -> connects_work env.
Proof. intros H sig. apply H. Qed.

Lemma trigger_delete_run env w :
  wiring w = wired_up ->
  after (MainWindow.handle env (MainWindow.ActionTriggered actionDelete) w) =
  MainWindow.record
    (DeleteSelectedRows "altmans_manic_rating_table" "altmans_model") w.
Proof.
  intros Hw. simpl. unfold MainWindow.emit_triggered, bind at 1, get at 1.
  rewrite Hw. simpl.
  unfold MainWindow.delete_selected_rows, bind, MainWindow.call, after.
  destruct (faults env (DeleteSelectedRows _ _)); reflexivity.
Qed.

Lemma trigger_commit_keeps_chrome env w :
  wiring w = wired_up ->
  chrome (after (MainWindow.handle env
                   (MainWindow.ActionTriggered actionCommit) w)) = chrome w.
Proof.
  intros Hw. simpl. unfold MainWindow.emit_triggered, bind at 1, get at 1.
  rewrite Hw. simpl.
  unfold MainWindow.add_altmans_data, bind, get, MainWindow.call, after.
  destruct (faults env (AddAltmansData _ _ _)); reflexivity.
Qed.

(** X10. In a window the constructor has returned, triggering the delete
    action makes one call and no other: [delete_selected_rows], handed
    the table ['altmans_manic_rating_table'] and the model name
    ['altmans_model']; there is no confirmation before it. *)
Theorem delete_action_calls_delete_selected_rows env w0 w :
  connects_work env ->
  wiring w0 = no_wiring ->
  MainWindow.reachable env w0 w ->
  let w' := after (MainWindow.handle env
                     (MainWindow.ActionTriggered actionDelete) w) in
  calls_since w w' =
    [DeleteSelectedRows "altmans_manic_rating_table" "altmans_model"].
Proof.
  intros Hc H0 H w'. subst w'.
  rewrite (trigger_delete_run env w (reachable_wiring env Hc w0 w H0 H)).
  apply calls_since_app. reflexivity.
Qed.

Lemma delete_action_calls_delete_selected_rows_witness :
  let w := after (MainWindow.__init__ quiet setupUi) in
  calls_since w
    (after (MainWindow.handle quiet (MainWindow.ActionTriggered actionDelete) w))
  = [DeleteSelectedRows "altmans_manic_rating_table" "altmans_model"].
Proof.
  apply (delete_action_calls_delete_selected_rows quiet setupUi).
  - intros sig. reflexivity.
  - reflexivity.
  - apply MainWindow.reach_init. vm_compute. reflexivity.
Defined.

(** X11. In a window the constructor has returned, and with working
    collaborators, the action of a page shows that page and fixes the
    window at the size of the page, 476 by 175 for the exam and 800 by 460
    for the table, where it stands; the form is untouched, and the page
    index is written to the settings store when, and only when, the page
    was not the one shown. *)
Theorem page_action_shows_page_at_its_size env w0 w p :
  calm env ->
  wiring w0 = no_wiring ->
  MainWindow.reachable env w0 w ->
  let r := MainWindow.handle env (MainWindow.ActionTriggered (action_of p)) w in
  outcome r = Returned tt /\
  stackedWidget (chrome (after r)) = MainWindow.page_index p /\
  frame_w (geometry (chrome (after r))) = fst (size_of p) /\
  frame_h (geometry (chrome (after r))) = snd (size_of p) /\
  fixedSize (chrome (after r)) = Some (size_of p) /\
  frame_x (geometry (chrome (after r))) = frame_x (geometry (chrome w)) /\
  frame_y (geometry (chrome (after r))) = frame_y (geometry (chrome w)) /\
  form (after r) = form w /\
  settings (after r) =
    (if MainWindow.page_index p =? stackedWidget (chrome w) then settings w
     else <["lastPageIndex" := VInt (MainWindow.page_index p)]> (settings w)).
Proof.
  intros Hc H0 H r. subst r.
  pose proof (reachable_wiring env (calm_connects_work env Hc) w0 w H0 H) as Hw.
  destruct (show_page_action_run env Hc p w Hw) as [h' E].
  rewrite E. repeat split.
Qed.

Lemma page_action_shows_page_at_its_size_witness :
  let w := after (MainWindow.__init__ quiet setupUi) in
  let r := MainWindow.handle quiet
             (MainWindow.ActionTriggered actionShowAltmanTable) w in
  stackedWidget (chrome (after r)) = 1 /\
  fixedSize (chrome (after r)) = Some (800, 460) /\
  settings (after r) !! "lastPageIndex" = Some (VInt 1).
Proof.
  assert (Hc : calm quiet) by (intros o; reflexivity).
  assert (Hr : MainWindow.reachable quiet setupUi
                 (after (MainWindow.__init__ quiet setupUi)))
    by (apply MainWindow.reach_init; vm_compute; reflexivity).
  destruct (page_action_shows_page_at_its_size quiet setupUi _ twopage
              Hc eq_refl Hr) as (_ & H1 & _ & _ & H2 & _).
  split; [exact H1 | split; [exact H2 |]].
  vm_compute. reflexivity.
Defined.

Lemma chrome_kept_by_other_events env C ev :
  match ev with MainWindow.ActionTriggered _ => False | _ => True end ->
  keeps (fun w => chrome w = C) (MainWindow.handle env ev).
Proof. destruct ev; intros H; try contradiction; keeps_walk assumption. Qed.

(** X12. In a window the constructor has returned, and with working
    collaborators, whatever event changes the page that is shown leaves
    the index of the new page under ["lastPageIndex"] in the settings
    store: the page to restore is saved when it changes, not on close. *)
Theorem page_change_is_saved env w0 w ev :
  calm env ->
  wiring w0 = no_wiring ->
  MainWindow.reachable env w0 w ->
  let w' := after (MainWindow.handle env ev w) in
  stackedWidget (chrome w') <> stackedWidget (chrome w) ->
  settings w' !! "lastPageIndex" = Some (VInt (stackedWidget (chrome w'))).
Proof.
  intros Hc H0 H w' Hchanged. subst w'.
  pose proof (reachable_wiring env (calm_connects_work env Hc) w0 w H0 H) as Hw.
  assert (Hpage : forall p,
    stackedWidget (chrome (after (MainWindow.handle env
       (MainWindow.ActionTriggered (action_of p)) w))) <>
      stackedWidget (chrome w) ->
    settings (after (MainWindow.handle env
       (MainWindow.ActionTriggered (action_of p)) w)) !! "lastPageIndex" =
    Some (VInt (stackedWidget (chrome (after (MainWindow.handle env
       (MainWindow.ActionTriggered (action_of p)) w)))))).
  { intros p. destruct (show_page_action_run env Hc p w Hw) as [h' E].
    rewrite E. unfold after. cbn [snd]. simpl. intros Hne.
    destruct (Z.eqb_spec (MainWindow.page_index p) (stackedWidget (chrome w)));
      [contradiction | apply lookup_insert_eq]. }
  destruct ev as [s v | a | d | t |].
  - exfalso. apply Hchanged. f_equal.
    apply (chrome_kept_by_other_events env (chrome w)
             (MainWindow.SliderMoved s v) I w eq_refl).
  - destruct a.
    + apply (Hpage onepage Hchanged).
    + apply (Hpage twopage Hchanged).
    + exfalso. apply Hchanged. f_equal. apply trigger_commit_keeps_chrome, Hw.
    + exfalso. apply Hchanged. rewrite (trigger_delete_run env w Hw). reflexivity.
  - exfalso. apply Hchanged. reflexivity.
  - exfalso. apply Hchanged. reflexivity.
  - exfalso. apply Hchanged. f_equal.
    apply (chrome_kept_by_other_events env (chrome w)
             MainWindow.CloseRequested I w eq_refl).
Qed.

Lemma page_change_is_saved_witness :
  let w := after (MainWindow.__init__ quiet setupUi) in
  let w' := after (MainWindow.handle quiet
                     (MainWindow.ActionTriggered actionShowAltmanTable) w) in
  settings w !! "lastPageIndex" = None /\
  settings w' !! "lastPageIndex" = Some (VInt (stackedWidget (chrome w'))).
Proof.
  split; [vm_compute; reflexivity |].
  apply (page_change_is_saved quiet setupUi).
  - intros o. reflexivity.
  - reflexivity.
  - apply MainWindow.reach_init. vm_compute. reflexivity.
  - vm_compute. discriminate.
Defined.

Lemma move_slider_run env w s v :
  summary_calls_work env ->
  wiring w = wired_up ->
  let f1 := dragged s v (form w) in
  MainWindow.handle env (MainWindow.SliderMoved s v) w =
  if value (slider s f1) =? value (slider s (form w)) then (Returned tt, w)
  else
    (Returned tt,
     with_history
       (history w ++ summary_reads f1 MainWindow.form_sliders ++
        [SummarySetValue (positive_sum (slider_values f1))])
       (with_form (summary_set (positive_sum (slider_values f1)) f1) w)).
Proof.
  intros Hs Hw f1. subst f1. simpl.
  unfold MainWindow.move_slider, bind at 1, get at 1. unfold dragged.
  destruct (value (slider s (set_slider s (Ranged_setValue v (slider s (form w)))
                              (form w))) =? value (slider s (form w))) eqn:E;
    rewrite slider_set_slider in E;
    destruct (decide (s = s)) as [_|Hne]; try contradiction;
    rewrite E; [reflexivity |].
  unfold bind at 1, modify at 1.
  unfold MainWindow.emit_valueChanged, bind at 1, get at 1.
  cbn [wiring with_form]. rewrite Hw.
  destruct s; simpl;
    unfold bind at 1;
    rewrite (update_altmans_summary_calls env _ Hs); reflexivity.
Qed.

(** X13. In a window the constructor has returned, a drag that changes a
    slider's value runs the recomputation exactly once, for the form with
    the new value: the five sliders are read, [setValue] is called once
    with their positive sum, and nothing else is called; a drag that does
    not change the value does nothing at all. *)
Theorem slider_change_recomputes_once env w0 w s v :
  summary_calls_work env ->
  connects_work env ->
  wiring w0 = no_wiring ->
  MainWindow.reachable env w0 w ->
  let f1 := dragged s v (form w) in
  let w' := after (MainWindow.handle env (MainWindow.SliderMoved s v) w) in
  (value (slider s f1) = value (slider s (form w)) -> w' = w) /\
  (value (slider s f1) <> value (slider s (form w)) ->
   calls_since w w' =
     summary_reads f1 MainWindow.form_sliders ++
     [SummarySetValue (positive_sum (slider_values f1))] /\
   count is_summary_setValue (calls_since w w') = 1%nat /\
   form w' = summary_set (positive_sum (slider_values f1)) f1).
Proof.
  intros Hs Hc H0 H f1 w'. subst w'.
  rewrite (move_slider_run env w s v Hs (reachable_wiring env Hc w0 w H0 H)).
  fold f1.
  destruct (Z.eqb_spec (value (slider s f1)) (value (slider s (form w))))
    as [E|E]; split; intros E'; try contradiction; [reflexivity |].
  unfold after. cbn [snd].
  erewrite calls_since_app; [| reflexivity].
  split; [reflexivity |]. split; [| reflexivity].
  rewrite count_app.
  rewrite (proj1 (count_summary_reads f1 MainWindow.form_sliders)).
  reflexivity.
Qed.

Lemma slider_change_recomputes_once_witness :
  let w := after (MainWindow.__init__ quiet setupUi) in
  let w' := after (MainWindow.handle quiet (MainWindow.SliderMoved Cheer 3) w) in
  count is_summary_setValue (calls_since w w') = 1%nat /\
  value (altmans_summary (form w')) = 3.
Proof.
  assert (Hr : MainWindow.reachable quiet setupUi
                 (after (MainWindow.__init__ quiet setupUi)))
    by (apply MainWindow.reach_init; vm_compute; reflexivity).
  destruct (slider_change_recomputes_once quiet setupUi _ Cheer 3
              quiet_summary_calls_work (fun _ => eq_refl) eq_refl Hr)
    as [_ Hch].
  destruct Hch as (_ & H1 & H2); [vm_compute; discriminate |].
  split; [exact H1 |]. vm_compute. reflexivity.
Defined.

(** ** Starting up *)

Lemma c_int_small n : - 2 ^ 31 <= n < 2 ^ 31 -> c_int n = n.
Proof. intros H. unfold c_int. rewrite Z.mod_small; lia. Qed.

Lemma on_page_changed_run env w i :
  calm env ->
  MainWindow.on_page_changed env i w =
  (Returned tt,
   with_settings (<["lastPageIndex" := VInt i]> (settings w))
     (MainWindow.record (SettingsSetValue "lastPageIndex" (VInt i)) w)).
Proof.
  intros Hc.
  unfold MainWindow.on_page_changed, try_except, MainWindow.settings_setValue,
    bind, MainWindow.call, modify.
  rewrite Hc. reflexivity.
Qed.

Section StartingUp.

Variable env : Env.
Hypothesis quiet_env : calm env.
Variable v : QVariant.
Variable n : Z.
Hypothesis converts : as_c_int v = Some n.

Lemma on_page_changed_saves w :
  stackedWidget (chrome w) = n ->
  page_changed_to n (after (MainWindow.on_page_changed env n w)).
Proof.
  intros H. rewrite (on_page_changed_run env w n quiet_env).
  split; [exact H | apply lookup_insert_eq].
Qed.

Lemma emit_currentChanged_saves w :
  stackedWidget (chrome w) = n ->
  currentChanged (wiring w) <> [] ->
  MainWindow.emit_currentChanged env n w =
    (Returned tt, after (MainWindow.emit_currentChanged env n w)) /\
  page_changed_to n (after (MainWindow.emit_currentChanged env n w)).
Proof.
  intros Hp Hne. split.
  - pose proof (no_raise_emit_currentChanged env n w) as Ho.
    unfold outcome, after in *.
    destruct (MainWindow.emit_currentChanged env n w) as [o w1].
    simpl in *. rewrite Ho. reflexivity.
  - unfold MainWindow.emit_currentChanged, bind at 1, get at 1.
    destruct (currentChanged (wiring w)) as [|[] slots]; [contradiction |].
    simpl. unfold after, bind.
    pose proof (on_page_changed_saves w Hp) as Hs.
    rewrite (on_page_changed_run env w n quiet_env) in *.
    unfold after in Hs. cbn [snd] in Hs.
    apply (keeps_for_each (page_changed_to n) slots); [| exact Hs].
    intros [] w1 [H1 _]. apply on_page_changed_saves, H1.
Qed.

Lemma show_page_settles current :
  runs (page_found v current) (MainWindow.show_page env n)
    (fun _ => page_settled v n current).
Proof.
  unfold MainWindow.show_page. intros w (Hs & Hp & Hne).
  unfold bind at 1, get at 1. unfold page_settled, shown_page.
  destruct ((0 <=? n) && (n <? 2)) eqn:Hvalid; simpl.
  - rewrite Hp.
    destruct (Z.eqb_spec n current) as [E|E]; simpl.
    + exists tt, w. split; [reflexivity |]. split; [congruence | exact Hs].
    + unfold bind, modify.
      destruct (emit_currentChanged_saves
                  (with_chrome (set_stackedWidget n (chrome w)) w))
        as (Erun & Hpage & Hsaved); [reflexivity | exact Hne |].
      rewrite Erun. eexists tt, _. split; [reflexivity |].
      split; [exact Hpage | exact Hsaved].
  - rewrite Z.eqb_refl. exists tt, w.
    split; [reflexivity |]. split; [exact Hp | exact Hs].
Qed.

Lemma app_operations_settles current :
  runs (fun w => settings w !! "lastPageIndex" = Some v /\
                 stackedWidget (chrome w) = current)
    (MainWindow.app_operations env)
    (fun _ w =>
       page_settled v n current w /\
       altman_time (form w) = clock_time env /\
       altman_date (form w) = clock_date env).
Proof.
  set (P := page_found v current).
  set (Q := page_settled v n current).
  unfold MainWindow.app_operations. apply runs_try.
  apply (runs_bind _ (fun _ => P)).
  { unfold MainWindow.connect_currentChanged.
    apply (runs_bind _ (fun _ w => settings w !! "lastPageIndex" = Some v /\
                                   stackedWidget (chrome w) = current)).
    - apply (runs_call env quiet_env). intros w Hw. exact Hw.
    - intros _. apply runs_modify. intros w [H1 H2].
      repeat split; try assumption. simpl.
      destruct (currentChanged (wiring w)); discriminate. }
  intros _.
  apply (runs_bind P (fun i w => i = n /\ P w)).
  { unfold MainWindow.settings_value_int.
    apply (runs_bind P (fun x w => x = v /\ P w)).
    - unfold MainWindow.settings_value.
      apply (runs_bind P (fun _ => P)).
      + apply (runs_call env quiet_env). intros w Hw. exact Hw.
      + intros _. apply (runs_bind P (fun a w => a = w /\ P w)).
        * apply runs_get. intros w Hw. split; [reflexivity | exact Hw].
        * intros a. apply runs_ret. intros w [-> Hw].
          split; [| exact Hw]. destruct Hw as [-> _]. reflexivity.
    - intros x w [-> Hw]. rewrite converts. exists n, w.
      split; [reflexivity |]. split; [reflexivity | exact Hw]. }
  intros i.
  apply (runs_bind _ (fun _ => Q)).
  { intros w [-> Hw]. revert w Hw.
    unfold MainWindow.stackedWidget_setCurrentIndex.
    apply (runs_bind P (fun _ => P)).
    - apply (runs_call env quiet_env). intros w Hw. exact Hw.
    - intros _. apply show_page_settles. }
  intros _.
  apply (runs_bind Q (fun t w => t = clock_time env /\ Q w)).
  { unfold MainWindow.QTime_currentTime.
    apply (runs_bind Q (fun _ => Q)).
    - apply (runs_call env quiet_env). intros w Hw. exact Hw.
    - intros _. apply runs_ret. intros w Hw. split; [reflexivity | exact Hw]. }
  intros t.
  apply (runs_bind _ (fun _ w => Q w /\ altman_time (form w) = clock_time env)).
  { unfold MainWindow.altman_time_setTime.
    apply (runs_bind _ (fun _ w => t = clock_time env /\ Q w)).
    - apply (runs_call env quiet_env). intros w Hw. exact Hw.
    - intros _. apply runs_modify. intros w [-> Hw].
      split; [exact Hw | reflexivity]. }
  intros _.
  apply (runs_bind _
           (fun d w => d = clock_date env /\
                       Q w /\ altman_time (form w) = clock_time env)).
  { unfold MainWindow.QDate_currentDate.
    apply (runs_bind _
             (fun _ w => Q w /\ altman_time (form w) = clock_time env)).
    - apply (runs_call env quiet_env). intros w Hw. exact Hw.
    - intros _. apply runs_ret. intros w Hw. split; [reflexivity | exact Hw]. }
  intros d.
  unfold MainWindow.altman_date_setDate.
  apply (runs_bind _
           (fun _ w => d = clock_date env /\
                       Q w /\ altman_time (form w) = clock_time env)).
  - apply (runs_call env quiet_env). intros w Hw. exact Hw.
  - intros _. apply runs_modify. intros w (-> & Hw & Ht).
    split; [exact Hw | split; [exact Ht | reflexivity]].
Qed.

End StartingUp.

(** X14. With working collaborators, [app_operations] in a window that
    finds a value saved as the last page reads it as a C [int] [n] (an
    integer cut to 32 bits, a byte string read as a decimal number), shows
    page [n] when the stack has it (0 or 1) and leaves the page alone
    otherwise, and sets the time and the date of the form to the current
    ones; the saved value is replaced by [n] when the page changed, and
    kept otherwise. *)
Theorem app_operations_restores_saved_page env w v n :
  calm env ->
  settings w !! "lastPageIndex" = Some v ->
  as_c_int v = Some n ->
  let w' := after (MainWindow.app_operations env w) in
  let page := if (0 <=? n) && (n <? 2) then n else stackedWidget (chrome w) in
  outcome (MainWindow.app_operations env w) = Returned tt /\
  stackedWidget (chrome w') = page /\
  settings w' !! "lastPageIndex" =
    Some (if page =? stackedWidget (chrome w) then v else VInt n) /\
  altman_time (form w') = clock_time env /\
  altman_date (form w') = clock_date env.
Proof.
  intros Hc Hs Hn w' page. subst w' page.
  destruct (app_operations_settles env Hc v n Hn (stackedWidget (chrome w)) w)
    as (u & w1 & E & (H1 & H2) & H3 & H4).
  { split; [exact Hs | reflexivity]. }
  rewrite E. destruct u. repeat split; assumption.
Qed.

Lemma app_operations_restores_saved_page_witness :
  let w' := after (MainWindow.app_operations quiet overflown) in
  stackedWidget (chrome overflown) = 0 /\
  stackedWidget (chrome w') = 1 /\
  settings w' !! "lastPageIndex" = Some (VInt 1) /\
  altman_date (form w') = {| year := 2024; month := 5; day := 17 |}.
Proof.
  assert (Hc : calm quiet) by (intros o; reflexivity).
  destruct (app_operations_restores_saved_page quiet overflown
              (VInt (2 ^ 32 + 1)) 1 Hc)
    as (_ & H1 & H2 & _ & H3).
  - vm_compute. reflexivity.
  - vm_compute. reflexivity.
  - split; [reflexivity |]. split; [exact H1 |]. split; [exact H2 | exact H3].
Defined.

(** A page index stored as the text of a number is read as that number,
    and text that is no number is not read at all. *)
Example stored_text_is_read_as_a_number :
  as_c_int (VBytes [Byte.x20; Byte.x31; Byte.x0a]) = Some 1 /\
  as_c_int (VBytes [Byte.x2d; Byte.x31; Byte.x32]) = Some (-12) /\
  as_c_int (VBytes [Byte.x31; Byte.x61]) = None /\
  as_c_int (VBytes []) = None /\
  as_c_int (VInt (2 ^ 31)) = Some (- 2 ^ 31).
Proof. repeat split; vm_compute; reflexivity. Qed.

Lemma app_operations_read_fails env w e :
  faults env (Connect sig_currentChanged) = None ->
  faults env (SettingsValue "lastPageIndex") = Some e ->
  MainWindow.app_operations env w =
  (Returned tt,
   with_history
     (history w ++
      [Connect sig_currentChanged; SettingsValue "lastPageIndex";
       LoggerError ("Error occurred while setting up app_operations : " +:+ e)])
     (with_wiring (add_page_slot bound_on_page_changed (wiring w)) w)).
Proof.
  intros Hconn Hf.
  unfold MainWindow.app_operations, try_except,
    MainWindow.connect_currentChanged, MainWindow.settings_value_int,
    MainWindow.settings_value, MainWindow.logger_error, get, ret, modify, raise.
  repeat (progress (unfold bind, MainWindow.call; rewrite ?Hconn, ?Hf; simpl)).
  unfold MainWindow.record, with_history, with_wiring, add_page_slot. simpl.
  rewrite <- !app_assoc. reflexivity.
Qed.

(** X15. When the read of the saved page raises, [app_operations] logs it
    and returns with the page signal connected, but the rest of its [try]
    is skipped: the page is not set, and the time and the date of the
    form are not set to the current ones. *)
Theorem app_operations_skips_the_clock_when_the_read_fails env w e :
  faults env (Connect sig_currentChanged) = None ->
  faults env (SettingsValue "lastPageIndex") = Some e ->
  let w' := after (MainWindow.app_operations env w) in
  outcome (MainWindow.app_operations env w) = Returned tt /\
  form w' = form w /\
  chrome w' = chrome w /\
  settings w' = settings w /\
  currentChanged (wiring w') =
    currentChanged (wiring w) ++ [bound_on_page_changed] /\
  calls_since w w' =
    [Connect sig_currentChanged; SettingsValue "lastPageIndex";
     LoggerError ("Error occurred while setting up app_operations : " +:+ e)].
Proof.
  intros Hconn Hfail w'. subst w'.
  rewrite (app_operations_read_fails env w e Hconn Hfail).
  repeat split. apply calls_since_app. reflexivity.
Qed.

Lemma app_operations_skips_the_clock_when_the_read_fails_witness :
  let env := failing (is_read "lastPageIndex") "access denied" in
  let w' := after (MainWindow.app_operations env left_on_table) in
  altman_date (form w') = {| year := 2000; month := 1; day := 1 |} /\
  stackedWidget (chrome w') = 0 /\
  altman_date (form (after (MainWindow.app_operations quiet left_on_table))) =
    {| year := 2024; month := 5; day := 17 |}.
Proof.
  destruct (app_operations_skips_the_clock_when_the_read_fails
              (failing (is_read "lastPageIndex") "access denied")
              left_on_table "access denied") as (_ & H1 & H2 & _).
  - reflexivity.
  - reflexivity.
  - split; [rewrite H1; reflexivity |].
    split; [rewrite H2; reflexivity | vm_compute; reflexivity].
Defined.

(** X16. The page saved when the page changes is the page shown at the
    next start: with working collaborators, a window that finds the
    settings [on_page_changed(i)] left shows page [i] after
    [app_operations], for each page the stack has. *)
Theorem saved_page_round_trip env w1 w2 i :
  calm env ->
  0 <= i < 2 ->
  settings w2 = settings (after (MainWindow.on_page_changed env i w1)) ->
  let w' := after (MainWindow.app_operations env w2) in
  outcome (MainWindow.app_operations env w2) = Returned tt /\
  stackedWidget (chrome w') = i /\
  settings w' !! "lastPageIndex" = Some (VInt i).
Proof.
  intros Hc Hi Hset w'. subst w'.
  rewrite (on_page_changed_run env w1 i Hc) in Hset.
  unfold after in Hset. cbn [snd] in Hset. simpl in Hset.
  assert (Hn : as_c_int (VInt i) = Some i)
    by (simpl; rewrite c_int_small; [reflexivity | lia]).
  destruct (app_operations_settles env Hc (VInt i) i Hn
              (stackedWidget (chrome w2)) w2)
    as (u & w3 & E & (H1 & H2) & _).
  { split; [rewrite Hset; apply lookup_insert_eq | reflexivity]. }
  rewrite E. destruct u. unfold outcome, after. cbn [fst snd].
  assert (Hshown : shown_page i (stackedWidget (chrome w2)) = i).
  { unfold shown_page.
    destruct (Z.leb_spec 0 i); [| lia]. destruct (Z.ltb_spec i 2); [| lia].
    reflexivity. }
  split; [reflexivity |]. split; [rewrite H1; exact Hshown |].
  rewrite H2. destruct (_ =? _); reflexivity.
Qed.

Lemma saved_page_round_trip_witness :
  let saved := settings (after (MainWindow.on_page_changed quiet 1 setupUi)) in
  stackedWidget
    (chrome (after (MainWindow.app_operations quiet
                      (with_settings saved setupUi)))) = 1.
Proof.
  assert (Hc : calm quiet) by (intros o; reflexivity).
  destruct (saved_page_round_trip quiet setupUi
              (with_settings
                 (settings (after (MainWindow.on_page_changed quiet 1 setupUi)))
                 setupUi) 1 Hc) as (_ & H & _).
  - lia.
  - reflexivity.
  - exact H.
Defined.

Lemma stack_navigation_first_fails env w e :
  faults env (Connect (sig_triggered actionShowAltmanExam)) = Some e ->
  MainWindow.stack_navigation env w =
  (Returned tt,
   with_history
     (history w ++
      [Connect (sig_triggered actionShowAltmanExam);
       LoggerError ("An error has occurred: " +:+ e)]) w).
Proof.
  intros Hf.
  unfold MainWindow.stack_navigation, try_except. simpl for_each.
  unfold MainWindow.connect_triggered, MainWindow.logger_error, modify.
  repeat (progress (unfold bind, MainWindow.call; rewrite ?Hf; simpl)).
  unfold MainWindow.record, with_history. simpl.
  rewrite <- !app_assoc. reflexivity.
Qed.

(** X17. One [try] covers the whole loop of [stack_navigation]: when
    connecting the first page action raises, the failure is logged and
    the method returns, but the second page action is never connected,
    although its own [connect] would have worked. *)
Theorem stack_navigation_gives_up_at_the_first_failure env w e :
  faults env (Connect (sig_triggered actionShowAltmanExam)) = Some e ->
  let w' := after (MainWindow.stack_navigation env w) in
  outcome (MainWindow.stack_navigation env w) = Returned tt /\
  wiring w' = wiring w /\
  calls_since w w' =
    [Connect (sig_triggered actionShowAltmanExam);
     LoggerError ("An error has occurred: " +:+ e)] /\
  count (is_connect (sig_triggered actionShowAltmanTable)) (calls_since w w')
    = 0%nat.
Proof.
  intros Hf w'. subst w'.
  rewrite (stack_navigation_first_fails env w e Hf).
  unfold after, outcome. cbn [fst snd].
  erewrite calls_since_app; [| reflexivity].
  repeat split.
Qed.

Lemma stack_navigation_gives_up_at_the_first_failure_witness :
  let env := failing (is_connect (sig_triggered actionShowAltmanExam))
                     "connect failed" in
  triggered (wiring (after (MainWindow.stack_navigation env setupUi))) = [] /\
  faults env (Connect (sig_triggered actionShowAltmanTable)) = None.
Proof.
  destruct (stack_navigation_gives_up_at_the_first_failure
              (failing (is_connect (sig_triggered actionShowAltmanExam))
                       "connect failed") setupUi "connect failed")
    as (_ & H & _).
  - reflexivity.
  - split; [rewrite H; reflexivity | reflexivity].
Defined.
